(** * libkhax: a shallow embedding of khaxinit.cpp

    The ARM11 kernel exploit of libkhax (src/khaxinit.cpp) is modelled as
    state-passing code over a session object (the C++ class instance) and a
    host world.  The host is the part the library calls but does not contain
    (ctrulib system calls, GSP GPU copies, APT): every host call is logged in
    a trace and answered by the next value of a reply stream, so theorems
    quantify over every behaviour of the host.  Kernel-mode code of the
    library (the hijacked SVC bodies, svcBackdoor payloads) acts directly on
    the parts of kernel state it touches. *)

From Stdlib Require Import ZArith List Bool Lia.
Import ListNotations.
Open Scope Z_scope.

(** ** Machine integers *)

Definition u32 (z : Z) : Z := z mod 2 ^ 32.

(** [Result] is a signed 32-bit integer. *)
Definition s32 (z : Z) : Z :=
  let u := u32 z in if u <? 2 ^ 31 then u else u - 2 ^ 32.

(** [~x] on a [u32]. *)
Definition u32_not (x : Z) : Z := Z.lxor (u32 x) (2 ^ 32 - 1).

(** libctru's [SYSTEM_VERSION(major, minor, revision)]. *)
Definition SYSTEM_VERSION (major minor revision : Z) : Z :=
  Z.lor (Z.lor (Z.shiftl major 24) (Z.shiftl minor 16)) (Z.shiftl revision 8).

(** [KHAX::MakeError]: [(level << 27) + (summary << 21) + (module << 10) + error]
    computed on [Result]; the shift of a level of 16 or more wraps. *)
Definition MakeError (level summary module error : Z) : Z :=
  s32 (Z.shiftl level 27 + Z.shiftl summary 21 + Z.shiftl module 10 + error).

Definition KHAX_MODULE : Z := 254.

(** [R_FAILED(res)]: a negative result. *)
Definition R_FAILED (res : Z) : bool := res <? 0.

Definition PAGE_SIZE : Z := 4096.

(** ** Kernel and hardware version information ([struct VersionData]) *)

(** The three instantiations of [MakeKProcessPointers<KProcess_...>] used
    by the table: the accessor of the KProcess fields of a kernel layout. *)
Inductive KProcessLayout :=
| KProcess_1_0_0_Old
| KProcess_8_0_0_Old
| KProcess_8_0_0_New.

Record VersionData := mkVersionData {
  m_new3DS : bool;
  m_kernelVersion : Z;
  m_nominalVersion : Z;
  m_threadPatchAddress : Z;
  m_syscallPatchAddress : Z;
  m_fcramVirtualAddress : Z;
  m_fcramSize : Z;
  m_slabHeapVirtualAddress : Z;
  m_makeKProcessPointers : KProcessLayout
}.

(** The [static constexpr] members of [VersionData]. *)
Definition m_threadPatchOriginalCode : Z := 0x8DD00CE5.
Definition m_fcramPhysicalAddress : Z := 0x20000000.
Definition m_slabHeapPhysicalAddress : Z := 0x1FFA0000.
Definition m_kernelVirtualToPhysical : Z := 0x40000000.
Definition m_currentKProcessHandle : Z := 0xFFFF8001.

Definition SV := SYSTEM_VERSION.

(** [VersionData::s_versionTable], row by row. *)
Definition s_versionTable : list VersionData := [
  (* Old 3DS, old address layout *)
  mkVersionData false (SV 2 34 0) (SV 4 1 0) 0xEFF83C9F 0xEFF827CC 0xF0000000 0x08000000 0xFFF00000 KProcess_1_0_0_Old;
  mkVersionData false (SV 2 35 6) (SV 5 0 0) 0xEFF83737 0xEFF822A8 0xF0000000 0x08000000 0xFFF70000 KProcess_1_0_0_Old;
  mkVersionData false (SV 2 36 0) (SV 5 1 0) 0xEFF83733 0xEFF822A4 0xF0000000 0x08000000 0xFFF70000 KProcess_1_0_0_Old;
  mkVersionData false (SV 2 37 0) (SV 6 0 0) 0xEFF83733 0xEFF822A4 0xF0000000 0x08000000 0xFFF70000 KProcess_1_0_0_Old;
  mkVersionData false (SV 2 38 0) (SV 6 1 0) 0xEFF83733 0xEFF822A4 0xF0000000 0x08000000 0xFFF70000 KProcess_1_0_0_Old;
  mkVersionData false (SV 2 39 4) (SV 7 0 0) 0xEFF83737 0xEFF822A8 0xF0000000 0x08000000 0xFFF00000 KProcess_1_0_0_Old;
  mkVersionData false (SV 2 40 0) (SV 7 2 0) 0xEFF83733 0xEFF822A4 0xF0000000 0x08000000 0xFFF00000 KProcess_1_0_0_Old;
  (* Old 3DS, new address layout *)
  mkVersionData false (SV 2 44 6) (SV 8 0 0) 0xDFF8376F 0xDFF82294 0xE0000000 0x08000000 0xFFF00000 KProcess_8_0_0_Old;
  mkVersionData false (SV 2 46 0) (SV 9 0 0) 0xDFF8383F 0xDFF82290 0xE0000000 0x08000000 0xFFF70000 KProcess_8_0_0_Old;
  (* memchunkhax does not apply to these, so patch addresses are set to 0x0. *)
  mkVersionData false (SV 2 48 3) (SV 9 3 0) 0x0 0x0 0xE0000000 0x08000000 0xFFF70000 KProcess_8_0_0_Old;
  mkVersionData false (SV 2 49 0) (SV 9 5 0) 0x0 0x0 0xE0000000 0x08000000 0xFFF70000 KProcess_8_0_0_Old;
  mkVersionData false (SV 2 50 1) (SV 9 6 0) 0x0 0x0 0xE0000000 0x08000000 0xFFF70000 KProcess_8_0_0_Old;
  mkVersionData false (SV 2 50 7) (SV 10 0 0) 0x0 0x0 0xE0000000 0x08000000 0xFFF70000 KProcess_8_0_0_Old;
  mkVersionData false (SV 2 50 9) (SV 10 2 0) 0x0 0x0 0xE0000000 0x08000000 0xFFF70000 KProcess_8_0_0_Old;
  (* New 3DS *)
  mkVersionData true (SV 2 45 5) (SV 8 1 0) 0xDFF83757 0xDFF82264 0xE0000000 0x10000000 0xFFF70000 KProcess_8_0_0_New;
  mkVersionData true (SV 2 46 0) (SV 9 0 0) 0xDFF83837 0xDFF82260 0xE0000000 0x10000000 0xFFF70000 KProcess_8_0_0_New;
  (* memchunkhax does not apply to these, so patch addresses are set to 0x0. *)
  mkVersionData true (SV 2 48 3) (SV 9 3 0) 0x0 0x0 0xE0000000 0x10000000 0xFFF70000 KProcess_8_0_0_New;
  mkVersionData true (SV 2 49 0) (SV 9 5 0) 0x0 0x0 0xE0000000 0x10000000 0xFFF70000 KProcess_8_0_0_New;
  mkVersionData true (SV 2 50 1) (SV 9 6 0) 0x0 0x0 0xE0000000 0x10000000 0xFFF70000 KProcess_8_0_0_New;
  mkVersionData true (SV 2 50 7) (SV 10 0 0) 0x0 0x0 0xE0000000 0x10000000 0xFFF70000 KProcess_8_0_0_New;
  mkVersionData true (SV 2 50 9) (SV 10 2 0) 0x0 0x0 0xE0000000 0x10000000 0xFFF70000 KProcess_8_0_0_New
].

(** The loop of [GetForCurrentSystem] over the table. *)
Fixpoint search_table (table : list VersionData) (kernelVersion : Z)
    (isNew3DS : bool) : option VersionData :=
  match table with
  | [] => None
  | entry :: rest =>
      (* New 3DS flag must match. *)
      if (m_new3DS entry && negb isNew3DS) || (negb (m_new3DS entry) && isNew3DS)
      then search_table rest kernelVersion isNew3DS
      (* Kernel version must match. *)
      else if negb (m_kernelVersion entry =? kernelVersion)
      then search_table rest kernelVersion isNew3DS
      else Some entry
  end.

(** ** The host: system calls, GPU, services *)

Inductive memop := MEMOP_FREE | MEMOP_ALLOC | MEMOP_ALLOC_LINEAR.

Definition MEMPERM_READ_WRITE : Z := 3.
Definition MEMPERM_DONTCARE : Z := 0x10000000.

(** The functions run through [svcBackdoor]. *)
Inductive backdoor_fn := PatchPID | UnpatchPID.

(** The entry points given to [threadCreate] in [MemChunkHax2]. *)
Inductive thread_fn := Step3a_DelayThread | Step3b_AllocateThread.

(** One call into the host, as issued by the library. *)
Inductive event :=
| EGetKernelVersion                         (* osGetKernelVersion() *)
| EAPT_CheckNew3DS                          (* APT_CheckNew3DS(&isNew3DS) *)
| EControlMemory (addr0 size : Z) (op : memop) (perm : Z)
                                            (* svcControlMemory(&out, addr0, 0, size, op, perm) *)
| ELinearMemAlign (size alignment : Z)
| ELinearFree (p : Z)
| EInvalidateDataCache (p n : Z)            (* GSPGPU_InvalidateDataCache *)
| EFlushDataCache (p n : Z)                 (* GSPGPU_FlushDataCache *)
| EUserDmb | EUserDsb | EUserFlushPrefetch  (* CP15 barrier instructions *)
| ETextureCopy (src dest size flags : Z)    (* GX_TextureCopy(src, 0, dest, 0, size, flags) *)
| EWaitForPPF                               (* gspWaitForPPF() *)
| ENewArray (bytes : Z)                     (* new(std::nothrow) u32[...] *)
| EDeleteArray (p : Z)
| ECreateThread (processor : Z)
      (* svcCreateThread(&h, nullptr, 0, nullptr, Step6a_SVCEntryPointThunk, processor) *)
| EKernelCleanDataCacheLine (p : Z)
| EKernelInvalidateICacheLine (p : Z)
| EGetProcessId (h : Z)
| EBackdoor (f : backdoor_fn)
| ESrvExit | ESrvInit
| ESleepThread (ns : Z)
| EAptOpenSession
| EAPT_SetAppCpuTimeLimit (percent : Z)
| EAptCloseSession
| ECreateEventKAddr (reset_type : Z)       (* svc 0x17 through svcCreateEventKAddr *)
| EMalloc (n : Z)
| EFree (p : Z)
| EThreadCreate (entry : thread_fn) (stack_size prio affinity : Z)
| EArbitrateUntilMapped (addr : Z)
      (* while (svcArbitrateAddress(arbiter, addr, ...) == 0xD9001814); *)
| EReadMapResult                            (* read of m_mapResult, written by Step3b *)
| EWaitMapResult                            (* while (m_mapResult == -1) svcSleepThread(1000000); *)
| ECloseHandle (h : Z)
| ECallOldDestructor.                       (* m_oldVtable[KEVENT_DESTRUCTOR]() *)

(** The host state seen by the library.  [w_replies] answers host calls in
    order (results first, then out-parameters); once it is exhausted the
    host answers 0. *)
Record World := mkWorld {
  w_replies : list Z;
  w_trace : list event;
  (* bytes of memory, by address *)
  w_mem : Z -> Z;
  (* osConvertVirtToPhys *)
  w_virtToPhys : Z -> Z;
  (* the SVC access control list of the current thread (kernel memory) *)
  w_threadACL : list Z;
  (* the process ID field of the current KProcess (kernel memory) *)
  w_processID : Z;
  (* the instruction pair of svcCreateThread at m_threadPatchAddress is overwritten *)
  w_createThreadPatched : bool
}.

Definition with_replies (r : list Z) (w : World) : World :=
  mkWorld r (w_trace w) (w_mem w) (w_virtToPhys w) (w_threadACL w) (w_processID w)
    (w_createThreadPatched w).
Definition with_trace (t : list event) (w : World) : World :=
  mkWorld (w_replies w) t (w_mem w) (w_virtToPhys w) (w_threadACL w) (w_processID w)
    (w_createThreadPatched w).
Definition with_mem (m : Z -> Z) (w : World) : World :=
  mkWorld (w_replies w) (w_trace w) m (w_virtToPhys w) (w_threadACL w) (w_processID w)
    (w_createThreadPatched w).
Definition with_threadACL (a : list Z) (w : World) : World :=
  mkWorld (w_replies w) (w_trace w) (w_mem w) (w_virtToPhys w) a (w_processID w)
    (w_createThreadPatched w).
Definition with_processID (p : Z) (w : World) : World :=
  mkWorld (w_replies w) (w_trace w) (w_mem w) (w_virtToPhys w) (w_threadACL w) p
    (w_createThreadPatched w).
Definition with_createThreadPatched (b : bool) (w : World) : World :=
  mkWorld (w_replies w) (w_trace w) (w_mem w) (w_virtToPhys w) (w_threadACL w)
    (w_processID w) b.

(** ** A state monad over a session object and the world *)

Record St (T : Type) := mkSt { sess : T; world : World }.
Arguments mkSt {T}.
Arguments sess {T}.
Arguments world {T}.

Definition M (T A : Type) : Type := St T -> A * St T.

Definition ret {T A} (a : A) : M T A := fun st => (a, st).
Definition bind {T A B} (m : M T A) (k : A -> M T B) : M T B :=
  fun st => let (a, st') := m st in k a st'.

Notation "x <- m ;; k" := (bind m (fun x => k))
  (at level 61, m at next level, right associativity).
Notation "' p <- m ;; k" := (bind m (fun x => match x with p => k end))
  (at level 61, p pattern, m at next level, right associativity).
Notation "m ;; k" := (bind m (fun _ => k)) (at level 61, right associativity).

Definition get_sess {T} : M T T := fun st => (sess st, st).
Definition modify_sess {T} (f : T -> T) : M T unit :=
  fun st => (tt, mkSt (f (sess st)) (world st)).
Definition gets_world {T A} (f : World -> A) : M T A := fun st => (f (world st), st).
Definition modify_world {T} (f : World -> World) : M T unit :=
  fun st => (tt, mkSt (sess st) (f (world st))).

(** A host call: logged, answered by the next reply. *)
Definition call {T} (e : event) : M T Z :=
  fun st => let w := world st in
    (hd 0 (w_replies w),
     mkSt (sess st) (with_trace (w_trace w ++ [e]) (with_replies (tl (w_replies w)) w))).

(** A host call whose result is not used. *)
Definition emit {T} (e : event) : M T unit :=
  fun st => let w := world st in (tt, mkSt (sess st) (with_trace (w_trace w ++ [e]) w)).

(** An out-parameter written by the last host call. *)
Definition out {T} : M T Z :=
  fun st => let w := world st in
    (hd 0 (w_replies w), mkSt (sess st) (with_replies (tl (w_replies w)) w)).

(** Byte memory. *)
Definition upd_byte (m : Z -> Z) (a b : Z) : Z -> Z :=
  fun x => if x =? a then b else m x.

Definition load32_mem (m : Z -> Z) (a : Z) : Z :=
  m a + Z.shiftl (m (a + 1)) 8 + Z.shiftl (m (a + 2)) 16 + Z.shiftl (m (a + 3)) 24.

Definition store32_mem (m : Z -> Z) (a v : Z) : Z -> Z :=
  let v := u32 v in
  upd_byte (upd_byte (upd_byte (upd_byte m a (v mod 256))
    (a + 1) (Z.shiftr v 8 mod 256)) (a + 2) (Z.shiftr v 16 mod 256))
    (a + 3) (Z.shiftr v 24).

Definition copy_mem (m : Z -> Z) (dest src size : Z) : Z -> Z :=
  fun x => if (dest <=? x) && (x <? dest + size) then m (src + (x - dest)) else m x.

Definition load32 {T} (a : Z) : M T Z := gets_world (fun w => load32_mem (w_mem w) a).
Definition store32 {T} (a v : Z) : M T unit :=
  modify_world (fun w => with_mem (store32_mem (w_mem w) a v) w).
Definition store8 {T} (a v : Z) : M T unit :=
  modify_world (fun w => with_mem (upd_byte (w_mem w) a (v mod 256)) w).
Definition memcpy {T} (dest src size : Z) : M T unit :=
  modify_world (fun w => with_mem (copy_mem (w_mem w) dest src size) w).

Example store_load32 : load32_mem (store32_mem (fun _ => 7) 100 0xDEADBEEF) 100 = 0xDEADBEEF.
Proof. reflexivity. Qed.

(** ** Version lookup *)

Definition osGetKernelVersion {T} : M T Z := call EGetKernelVersion.

Definition APT_CheckNew3DS {T} : M T (Z * bool) :=
  r <- call EAPT_CheckNew3DS ;;
  b <- out ;;
  ret (r, negb (b =? 0)).

(** The kernel version [IsNew3DS] works with. *)
Definition IsNew3DS_kernelVersion {T} (kernelVersionAlreadyKnown : Z) : M T Z :=
  if kernelVersionAlreadyKnown =? 0 then osGetKernelVersion
  else ret kernelVersionAlreadyKnown.

(** [KHAX::IsNew3DS(bool *answer, u32 kernelVersionAlreadyKnown)]: returns the
    result and [*answer]. *)
Definition IsNew3DS {T} (kernelVersionAlreadyKnown : Z) : M T (Z * bool) :=
  kernelVersion <- IsNew3DS_kernelVersion kernelVersionAlreadyKnown ;;
  if kernelVersion >=? SYSTEM_VERSION 2 44 6 then
    '(error, isNew3DS) <- APT_CheckNew3DS ;;
    if negb (error =? 0) then ret (error, false)
    else ret (0, isNew3DS)
  else ret (0, false).

(** [VersionData::GetForCurrentSystem]. *)
Definition GetForCurrentSystem {T} : M T (option VersionData) :=
  kernelVersion <- osGetKernelVersion ;;
  '(r, isNew3DS) <- IsNew3DS kernelVersion ;;
  if negb (r =? 0) then ret None
  else ret (search_table s_versionTable kernelVersion isNew3DS).

(** [VersionData::ConvertLinearUserVAToKernelVA], given [osConvertVirtToPhys];
    0 is [nullptr]. *)
Definition ConvertLinearUserVAToKernelVA (osConvertVirtToPhys : Z -> Z)
    (vd : VersionData) (address : Z) : Z :=
  let physical := u32 (osConvertVirtToPhys address) in
  if physical =? 0 then 0
  else if (physical <? m_fcramPhysicalAddress)
          || (u32 (physical - m_fcramPhysicalAddress) >=? m_fcramSize vd) then 0
  else u32 (m_fcramVirtualAddress vd + (physical - m_fcramPhysicalAddress)).

Definition ConvertVA {T} (vd : VersionData) (address : Z) : M T Z :=
  gets_world (fun w => ConvertLinearUserVAToKernelVA (w_virtToPhys w) vd address).

(** ** Shared primitives *)

(** Modelled from the spec: the layout of [HeapFreeBlock] (declared in
    khaxinternal.h, which is not under src/): a count field, then the
    forward and backward links, then two reserved fields, 32 bits each. *)
Definition HeapFreeBlock_m_count : Z := 0.
Definition HeapFreeBlock_m_next : Z := 4.
Definition HeapFreeBlock_m_prev : Z := 8.

(** [sizeof(ExtraLinearMemory)]: a 64-byte aligned union of 64 bytes. *)
Definition sizeof_ExtraLinearMemory : Z := 64.

(** [KHAX::NukeDataCache]: allocate 2 MB, read every word, free it. *)
Definition DUMMY_ALLOC_SIZE : Z := 2 * 1024 * 1024.

Definition NukeDataCache {T} : M T Z :=
  dummyMemory <- call (ENewArray DUMMY_ALLOC_SIZE) ;;
  if dummyMemory =? 0 then ret (MakeError 26 3 KHAX_MODULE 1011)
  else
    (* the reads have no effect besides the data cache *)
    emit (EDeleteArray dummyMemory) ;;
    ret 0.

(** [KHAX::GSPwn(dest, src, size, wait)]: the GPU copy of [size] bytes. *)
Definition GSPwn {T} (dest src size : Z) (wait : bool) : M T Z :=
  result <- call (ETextureCopy src dest size 8) ;;
  if negb (result =? 0) then ret result
  else
    memcpy dest src size ;;
    (if wait then emit EWaitForPPF else ret tt) ;;
    result <- NukeDataCache ;;
    if negb (result =? 0) then ret result
    else ret 0.

Definition userFlushDataCache {T} (p n : Z) : M T Z := call (EFlushDataCache p n).
Definition userInvalidateDataCache {T} (p n : Z) : M T Z := call (EInvalidateDataCache p n).
Definition userFlushPrefetch {T} : M T unit := emit EUserFlushPrefetch.
Definition userDsb {T} : M T unit := emit EUserDsb.
Definition userDmb {T} : M T unit := emit EUserDmb.
Definition kernelCleanDataCacheLineWithMva {T} (p : Z) : M T unit :=
  emit (EKernelCleanDataCacheLine p).
Definition kernelInvalidateInstructionCacheLineWithMva {T} (p : Z) : M T unit :=
  emit (EKernelInvalidateICacheLine p).

(** Modelled from the spec: [KSVCACL] (khaxinternal.h, not under src/) is
    the syscall access bitmask, one bit per SVC number 0x00..0x7F: 16 bytes. *)
Definition sizeof_KSVCACL : nat := 16.

(** [s_fullAccessACL] of [Step6e_GrantSVCAccess] and [Step3e_GrantSVCAccess]:
    "\xFE\xFF\xFF\xFF\xFF\xFF\xFF\xFF\xFF\xFF\xFF\xFF\xFF\xFF\xFF\x3F". *)
Definition s_fullAccessACL : list Z :=
  [0xFE; 0xFF; 0xFF; 0xFF; 0xFF; 0xFF; 0xFF; 0xFF;
   0xFF; 0xFF; 0xFF; 0xFF; 0xFF; 0xFF; 0xFF; 0x3F].

(** Bit [n] of an ACL: SVC [n] is allowed. *)
Definition acl_allows (acl : list Z) (n : Z) : bool :=
  Z.testbit (nth (Z.to_nat (n / 8)) acl 0) (n mod 8).

(** [std::memcpy(dest, src, sizeof(KSVCACL))]. *)
Definition copy_acl (src : list Z) : list Z := firstn sizeof_KSVCACL src.

(** [svcSleepThread(s64(60) * 1000000000)] forever; [fuel] bounds the number
    of iterations observed, [None] means the loop is still running. *)
Fixpoint freeze {T} (fuel : nat) : M T (option unit) :=
  match fuel with
  | O => ret None
  | S fuel' => emit (ESleepThread 60000000000) ;; freeze fuel'
  end.

(** [svcBackdoor(Step7a_PatchPID)] and [svcBackdoor(Step4a_PatchPID)]. *)
Definition backdoor_PatchPID {T} : M T unit :=
  emit (EBackdoor PatchPID) ;;
  modify_world (with_processID 0).

(** [svcBackdoor(Step7b_UnpatchPID)] and [svcBackdoor(Step4b_UnpatchPID)],
    restoring [originalPID]. *)
Definition backdoor_UnpatchPID {T} (originalPID : Z) : M T unit :=
  emit (EBackdoor UnpatchPID) ;;
  modify_world (with_processID originalPID).

(** [svcGetProcessId(&out, handle)]: result, then the ID. *)
Definition svcGetProcessId {T} (h : Z) : M T (Z * Z) :=
  r <- call (EGetProcessId h) ;;
  pid <- out ;;
  ret (r, pid).

(** [svcControlMemory(&out, addr0, 0, size, op, perm)]: result, then [out]. *)
Definition svcControlMemory {T} (addr0 size : Z) (op : memop) (perm : Z) : M T (Z * Z) :=
  r <- call (EControlMemory addr0 size op perm) ;;
  o <- out ;;
  ret (r, o).

(** ** [class MemChunkHax]: the heap-coalesce exploit *)

Module MemChunkHax.

Record MemChunkHax := mk {
  m_versionData : VersionData;
  m_nextStep : Z;
  m_corrupted : Z;
  (* OverwriteMemory *, 0 is nullptr; six pages of 4096 bytes *)
  m_overwriteMemory : Z;
  m_overwriteAllocated : Z;
  (* ExtraLinearMemory *, 0 is nullptr *)
  m_extraLinear : Z;
  m_oldACL : list Z;
  m_originalPID : Z
}.

Definition set_nextStep (v : Z) (s : MemChunkHax) : MemChunkHax :=
  mk (m_versionData s) v (m_corrupted s) (m_overwriteMemory s) (m_overwriteAllocated s)
    (m_extraLinear s) (m_oldACL s) (m_originalPID s).
Definition set_corrupted (v : Z) (s : MemChunkHax) : MemChunkHax :=
  mk (m_versionData s) (m_nextStep s) v (m_overwriteMemory s) (m_overwriteAllocated s)
    (m_extraLinear s) (m_oldACL s) (m_originalPID s).
Definition set_overwriteMemory (v : Z) (s : MemChunkHax) : MemChunkHax :=
  mk (m_versionData s) (m_nextStep s) (m_corrupted s) v (m_overwriteAllocated s)
    (m_extraLinear s) (m_oldACL s) (m_originalPID s).
Definition set_overwriteAllocated (v : Z) (s : MemChunkHax) : MemChunkHax :=
  mk (m_versionData s) (m_nextStep s) (m_corrupted s) (m_overwriteMemory s) v
    (m_extraLinear s) (m_oldACL s) (m_originalPID s).
Definition set_extraLinear (v : Z) (s : MemChunkHax) : MemChunkHax :=
  mk (m_versionData s) (m_nextStep s) (m_corrupted s) (m_overwriteMemory s)
    (m_overwriteAllocated s) v (m_oldACL s) (m_originalPID s).
Definition set_oldACL (v : list Z) (s : MemChunkHax) : MemChunkHax :=
  mk (m_versionData s) (m_nextStep s) (m_corrupted s) (m_overwriteMemory s)
    (m_overwriteAllocated s) (m_extraLinear s) v (m_originalPID s).
Definition set_originalPID (v : Z) (s : MemChunkHax) : MemChunkHax :=
  mk (m_versionData s) (m_nextStep s) (m_corrupted s) (m_overwriteMemory s)
    (m_overwriteAllocated s) (m_extraLinear s) (m_oldACL s) v.

(** The constructor.  [m_oldACL] and [m_originalPID] are left uninitialised
    by the C++ constructor; they are modelled as zero. *)
Definition new (versionData : VersionData) : MemChunkHax :=
  mk versionData 1 0 0 0 0 (repeat 0 sizeof_KSVCACL) 0.

Definition STEP6_SUCCESS_RESULT : Z := 0x1337C0DE.

Definition sizeof_OverwriteMemory : Z := 6 * 4096.

(** [&m_overwriteMemory->m_pages[i]] (also the address of its [m_freeBlock]). *)
Definition page (s : MemChunkHax) (i : Z) : Z := m_overwriteMemory s + i * PAGE_SIZE.

Definition invalid_step : Z := MakeError 28 5 KHAX_MODULE 1016.

Definition Step1_Initialize : M MemChunkHax Z :=
  s <- get_sess ;;
  if negb (m_nextStep s =? 1) then ret invalid_step
  else
    (* Nothing to do in current implementation. *)
    modify_sess (fun s => set_nextStep (m_nextStep s + 1) s) ;;
    ret 0.

Definition Step2_AllocateMemory : M MemChunkHax Z :=
  s <- get_sess ;;
  if negb (m_nextStep s =? 2) then ret invalid_step
  else
    '(result, address) <- svcControlMemory 0 sizeof_OverwriteMemory MEMOP_ALLOC_LINEAR
                             MEMPERM_READ_WRITE ;;
    if negb (result =? 0) then ret result
    else
      modify_sess (set_overwriteMemory address) ;;
      modify_sess (set_overwriteAllocated (Z.shiftl 1 6 - 1)) ;;
      (* Why didn't we get a page-aligned address?! *)
      if negb (Z.land address 0xFFF =? 0) then ret (MakeError 26 7 KHAX_MODULE 1009)
      else
        extra <- call (ELinearMemAlign sizeof_ExtraLinearMemory 64) ;;
        modify_sess (set_extraLinear extra) ;;
        if extra =? 0 then ret (MakeError 26 3 KHAX_MODULE 1011)
        else
          modify_sess (fun s => set_nextStep (m_nextStep s + 1) s) ;;
          ret 0.

(** [m_overwriteAllocated &= ~(1u << bit)]. *)
Definition clear_allocated (bit : Z) : M MemChunkHax unit :=
  modify_sess (fun s => set_overwriteAllocated
                          (Z.land (m_overwriteAllocated s) (u32_not (Z.shiftl 1 bit))) s).

Definition Step3_SurroundFree : M MemChunkHax Z :=
  s <- get_sess ;;
  if negb (m_nextStep s =? 3) then ret invalid_step
  else
    (* Free the third page. *)
    '(result, _) <- svcControlMemory (page s 2) PAGE_SIZE MEMOP_FREE 0 ;;
    if negb (result =? 0) then ret result
    else
      clear_allocated 2 ;;
      (* Free the fifth page. *)
      '(result, _) <- svcControlMemory (page s 4) PAGE_SIZE MEMOP_FREE 0 ;;
      if negb (result =? 0) then ret result
      else
        clear_allocated 4 ;;
        (* Attempt to write to remaining pages. *)
        store8 (page s 0) 0 ;;
        store8 (page s 1) 0 ;;
        store8 (page s 3) 0 ;;
        store8 (page s 5) 0 ;;
        modify_sess (fun s => set_nextStep (m_nextStep s + 1) s) ;;
        ret 0.

Definition Step4_VerifyExpectedLayout : M MemChunkHax Z :=
  s <- get_sess ;;
  if negb (m_nextStep s =? 4) then ret invalid_step
  else
    let vd := m_versionData s in
    let extra := m_extraLinear s in
    (* Copy the first freed page (third page) out to read its heap metadata. *)
    userInvalidateDataCache extra sizeof_ExtraLinearMemory ;;
    userDmb ;;
    result <- GSPwn extra (page s 2) sizeof_ExtraLinearMemory true ;;
    if negb (result =? 0) then ret result
    else
      next <- load32 (extra + HeapFreeBlock_m_next) ;;
      k4 <- ConvertVA vd (page s 4) ;;
      (* The next page from the third should equal the fifth page. *)
      if negb (next =? k4) then ret (MakeError 26 5 KHAX_MODULE 1014)
      else
        (* Copy the second freed page (fifth page) out to read its heap metadata. *)
        userInvalidateDataCache extra sizeof_ExtraLinearMemory ;;
        userDmb ;;
        result <- GSPwn extra (page s 4) sizeof_ExtraLinearMemory true ;;
        if negb (result =? 0) then ret result
        else
          prev <- load32 (extra + HeapFreeBlock_m_prev) ;;
          k2 <- ConvertVA vd (page s 2) ;;
          (* The previous page from the fifth should equal the third page. *)
          if negb (prev =? k2) then ret (MakeError 26 5 KHAX_MODULE 1014)
          else
            modify_sess (fun s => set_nextStep (m_nextStep s + 1) s) ;;
            ret 0.

(** The kernel's free of the second page in [Step5_CorruptCreateThread], as
    the comment of [Step6d_FixHeapCorruption] describes it: coalescing the
    freed block ("left") with the free third page ("right") does
    [left->m_next = right->m_next; right->m_next->m_prev = left;].  The
    second write lands in svcCreateThread when [right->m_next] was forged to
    point [offsetof(HeapFreeBlock, m_prev)] bytes before its patch site. *)
Definition kernel_coalesce (vd : VersionData) (left_user right_user : Z) : M MemChunkHax unit :=
  left <- ConvertVA vd left_user ;;
  rightNext <- load32 (right_user + HeapFreeBlock_m_next) ;;
  store32 (u32 (left + HeapFreeBlock_m_next)) rightNext ;;
  store32 (u32 (rightNext + HeapFreeBlock_m_prev)) left ;;
  if u32 (rightNext + HeapFreeBlock_m_prev) =? u32 (m_threadPatchAddress vd)
  then modify_world (with_createThreadPatched true)
  else ret tt.

Definition Step5_CorruptCreateThread : M MemChunkHax Z :=
  s <- get_sess ;;
  if negb (m_nextStep s =? 5) then ret invalid_step
  else
    let vd := m_versionData s in
    let extra := m_extraLinear s in
    userInvalidateDataCache extra sizeof_ExtraLinearMemory ;;
    userDmb ;;
    (* Read the memory page we're going to gspwn. *)
    result <- GSPwn extra (page s 2) sizeof_ExtraLinearMemory true ;;
    if negb (result =? 0) then ret result
    else
      store32 (extra + HeapFreeBlock_m_next)
        (u32 (m_threadPatchAddress vd - HeapFreeBlock_m_prev)) ;;
      userFlushDataCache (extra + HeapFreeBlock_m_next) 4 ;;
      (* Do the GSPwn, the actual exploit we've been waiting for. *)
      result <- GSPwn (page s 2) extra sizeof_ExtraLinearMemory true ;;
      if negb (result =? 0) then ret result
      else
        (* The heap is now corrupted in two ways (Step6 explains why two ways). *)
        modify_sess (fun s => set_corrupted (m_corrupted s + 2) s) ;;
        (* Corrupt svcCreateThread by freeing the second page. *)
        '(result, _) <- svcControlMemory (page s 1) PAGE_SIZE MEMOP_FREE 0 ;;
        if negb (result =? 0) then ret result
        else
          kernel_coalesce vd (page s 1) (page s 2) ;;
          clear_allocated 1 ;;
          userFlushPrefetch ;;
          (* We have an additional layer of instability because of the kernel code overwrite. *)
          modify_sess (fun s => set_corrupted (m_corrupted s + 1) s) ;;
          modify_sess (fun s => set_nextStep (m_nextStep s + 1) s) ;;
          ret 0.

(** Kernel mode, reached through the patched svcCreateThread. *)
Definition Step6c_UndoCreateThreadPatch : M MemChunkHax Z :=
  s <- get_sess ;;
  let vd := m_versionData s in
  (* Unpatch svcCreateThread.  NOTE: Misaligned pointer. *)
  store32 (m_threadPatchAddress vd) m_threadPatchOriginalCode ;;
  modify_world (with_createThreadPatched false) ;;
  kernelCleanDataCacheLineWithMva (m_threadPatchAddress vd) ;;
  userDsb ;;
  kernelInvalidateInstructionCacheLineWithMva (m_threadPatchAddress vd) ;;
  modify_sess (fun s => set_corrupted (m_corrupted s - 1) s) ;;
  ret 0.

Definition Step6d_FixHeapCorruption : M MemChunkHax Z :=
  s <- get_sess ;;
  let vd := m_versionData s in
  (* "left" is the second overwrite page. *)
  left <- ConvertVA vd (page s 1) ;;
  (* "right->m_next" is the fifth overwrite page. *)
  rightNext <- ConvertVA vd (page s 4) ;;
  (* Do the two fixups. *)
  store32 (u32 (left + HeapFreeBlock_m_next)) rightNext ;;
  modify_sess (fun s => set_corrupted (m_corrupted s - 1) s) ;;
  store32 (u32 (rightNext + HeapFreeBlock_m_prev)) left ;;
  modify_sess (fun s => set_corrupted (m_corrupted s - 1) s) ;;
  ret 0.

(** The thread's ACL is reached through [*m_currentKThreadPtr] and its
    [SVCThreadArea]; [w_threadACL] is that ACL. *)
Definition Step6e_GrantSVCAccess : M MemChunkHax Z :=
  threadACL <- gets_world w_threadACL ;;
  (* Save the old one for diagnostic purposes. *)
  modify_sess (set_oldACL (copy_acl threadACL)) ;;
  (* Set the ACL for the current thread. *)
  modify_world (with_threadACL (copy_acl s_fullAccessACL ++ skipn sizeof_KSVCACL threadACL)) ;;
  ret 0.

Definition Step6b_SVCEntryPoint : M MemChunkHax Z :=
  result <- Step6c_UndoCreateThreadPatch ;;
  if negb (result =? 0) then ret result
  else
    result <- Step6d_FixHeapCorruption ;;
    if negb (result =? 0) then ret result
    else
      result <- Step6e_GrantSVCAccess ;;
      if negb (result =? 0) then ret result
      else ret STEP6_SUCCESS_RESULT.

Definition Step6_ExecuteSVCCode : M MemChunkHax Z :=
  s <- get_sess ;;
  if negb (m_nextStep s =? 6) then ret invalid_step
  else
    emit (ECreateThread 0x7FFFFFFF) ;;
    (* A patched svcCreateThread falls into Step6a_SVCEntryPointThunk, whose
       result is returned; otherwise the kernel answers. *)
    patched <- gets_world w_createThreadPatched ;;
    result <- (if patched then Step6b_SVCEntryPoint else out) ;;
    if negb (result =? STEP6_SUCCESS_RESULT) then
      (* If the result was 0, something actually went wrong. *)
      if result =? 0 then ret (MakeError 27 11 KHAX_MODULE 1023)
      else ret result
    else
      modify_sess (fun s => set_nextStep (m_nextStep s + 1) s) ;;
      ret 0.

Definition Step7_GrantServiceAccess : M MemChunkHax Z :=
  s <- get_sess ;;
  if negb (m_nextStep s =? 7) then ret invalid_step
  else
    (* Backup the original PID. *)
    '(result, pid) <- svcGetProcessId m_currentKProcessHandle ;;
    modify_sess (set_originalPID pid) ;;
    if negb (result =? 0) then ret result
    else
      (* Patch the PID to 0, granting access to all services. *)
      backdoor_PatchPID ;;
      (* Check whether PID patching succeeded. *)
      '(result, newPID) <- svcGetProcessId m_currentKProcessHandle ;;
      if negb (result =? 0) then
        (* Attempt patching back anyway, for stability reasons. *)
        s <- get_sess ;;
        backdoor_UnpatchPID (m_originalPID s) ;;
        ret result
      else if negb (newPID =? 0) then ret (MakeError 27 11 KHAX_MODULE 1023)
      else
        (* Reinit ctrulib's srv connection to gain access to all services. *)
        emit ESrvExit ;;
        emit ESrvInit ;;
        (* Restore the original PID. *)
        s <- get_sess ;;
        backdoor_UnpatchPID (m_originalPID s) ;;
        (* Check whether PID restoring succeeded. *)
        '(result, newPID) <- svcGetProcessId m_currentKProcessHandle ;;
        if negb (result =? 0) then ret result
        else
          s <- get_sess ;;
          if negb (newPID =? m_originalPID s) then ret (MakeError 27 11 KHAX_MODULE 1023)
          else ret 0.

(** The step methods with their numbers. *)
Definition steps : list (Z * M MemChunkHax Z) :=
  [(1, Step1_Initialize); (2, Step2_AllocateMemory); (3, Step3_SurroundFree);
   (4, Step4_VerifyExpectedLayout); (5, Step5_CorruptCreateThread);
   (6, Step6_ExecuteSVCCode); (7, Step7_GrantServiceAccess)].

(** [KHAX::MemChunkHax::~MemChunkHax]; [None] while frozen. *)
Fixpoint free_pages (xs : list Z) : M MemChunkHax unit :=
  match xs with
  | [] => ret tt
  | x :: xs' =>
      s <- get_sess ;;
      (* Don't free a page unless it remains allocated. *)
      (if negb (Z.land (m_overwriteAllocated s) (Z.shiftl 1 x) =? 0) then
         svcControlMemory (page s x) PAGE_SIZE MEMOP_FREE 0 ;; ret tt
       else ret tt) ;;
      free_pages xs'
  end.

Definition destroy (fuel : nat) : M MemChunkHax (option unit) :=
  s <- get_sess ;;
  (* If we're corrupted, we're dead. *)
  if m_corrupted s >? 0 then freeze fuel
  else
    (if negb (m_overwriteMemory s =? 0) then free_pages [0; 1; 2; 3; 4; 5] else ret tt) ;;
    s <- get_sess ;;
    (* Free the extra linear memory. *)
    (if negb (m_extraLinear s =? 0) then emit (ELinearFree (m_extraLinear s)) else ret tt) ;;
    ret (Some tt).

End MemChunkHax.

(** ** [class MemChunkHax2]: the vtable-hijack exploit *)

Module MemChunkHax2.

(** Pointers and handles are addresses and handle values, 0 being null.
    [m_vtable] is the address of the in-object table of ten function
    pointers whose destructor slot is [Step3c_SVCEntryPointThunk]. *)
Record MemChunkHax2 := mk {
  m_versionData : VersionData;
  m_nextStep : Z;
  m_arbiter : Z;
  m_mapAddr : Z;
  m_mapSize : Z;
  m_mapResult : Z;
  m_isolatedPage : Z;
  m_isolatingPage : Z;
  m_kObjHandle : Z;
  m_kObjAddr : Z;
  m_backup : Z;
  m_delayThread : Z;
  m_oldVtable : Z;
  m_kernelResult : Z;
  m_oldACL : list Z;
  m_originalPID : Z;
  m_vtable : Z
}.

Definition set_nextStep (v : Z) (s : MemChunkHax2) : MemChunkHax2 :=
  mk (m_versionData s) v (m_arbiter s) (m_mapAddr s) (m_mapSize s) (m_mapResult s) (m_isolatedPage s) (m_isolatingPage s) (m_kObjHandle s) (m_kObjAddr s) (m_backup s) (m_delayThread s) (m_oldVtable s) (m_kernelResult s) (m_oldACL s) (m_originalPID s) (m_vtable s).
Definition set_arbiter (v : Z) (s : MemChunkHax2) : MemChunkHax2 :=
  mk (m_versionData s) (m_nextStep s) v (m_mapAddr s) (m_mapSize s) (m_mapResult s) (m_isolatedPage s) (m_isolatingPage s) (m_kObjHandle s) (m_kObjAddr s) (m_backup s) (m_delayThread s) (m_oldVtable s) (m_kernelResult s) (m_oldACL s) (m_originalPID s) (m_vtable s).
Definition set_mapAddr (v : Z) (s : MemChunkHax2) : MemChunkHax2 :=
  mk (m_versionData s) (m_nextStep s) (m_arbiter s) v (m_mapSize s) (m_mapResult s) (m_isolatedPage s) (m_isolatingPage s) (m_kObjHandle s) (m_kObjAddr s) (m_backup s) (m_delayThread s) (m_oldVtable s) (m_kernelResult s) (m_oldACL s) (m_originalPID s) (m_vtable s).
Definition set_mapSize (v : Z) (s : MemChunkHax2) : MemChunkHax2 :=
  mk (m_versionData s) (m_nextStep s) (m_arbiter s) (m_mapAddr s) v (m_mapResult s) (m_isolatedPage s) (m_isolatingPage s) (m_kObjHandle s) (m_kObjAddr s) (m_backup s) (m_delayThread s) (m_oldVtable s) (m_kernelResult s) (m_oldACL s) (m_originalPID s) (m_vtable s).
Definition set_mapResult (v : Z) (s : MemChunkHax2) : MemChunkHax2 :=
  mk (m_versionData s) (m_nextStep s) (m_arbiter s) (m_mapAddr s) (m_mapSize s) v (m_isolatedPage s) (m_isolatingPage s) (m_kObjHandle s) (m_kObjAddr s) (m_backup s) (m_delayThread s) (m_oldVtable s) (m_kernelResult s) (m_oldACL s) (m_originalPID s) (m_vtable s).
Definition set_isolatedPage (v : Z) (s : MemChunkHax2) : MemChunkHax2 :=
  mk (m_versionData s) (m_nextStep s) (m_arbiter s) (m_mapAddr s) (m_mapSize s) (m_mapResult s) v (m_isolatingPage s) (m_kObjHandle s) (m_kObjAddr s) (m_backup s) (m_delayThread s) (m_oldVtable s) (m_kernelResult s) (m_oldACL s) (m_originalPID s) (m_vtable s).
Definition set_isolatingPage (v : Z) (s : MemChunkHax2) : MemChunkHax2 :=
  mk (m_versionData s) (m_nextStep s) (m_arbiter s) (m_mapAddr s) (m_mapSize s) (m_mapResult s) (m_isolatedPage s) v (m_kObjHandle s) (m_kObjAddr s) (m_backup s) (m_delayThread s) (m_oldVtable s) (m_kernelResult s) (m_oldACL s) (m_originalPID s) (m_vtable s).
Definition set_kObjHandle (v : Z) (s : MemChunkHax2) : MemChunkHax2 :=
  mk (m_versionData s) (m_nextStep s) (m_arbiter s) (m_mapAddr s) (m_mapSize s) (m_mapResult s) (m_isolatedPage s) (m_isolatingPage s) v (m_kObjAddr s) (m_backup s) (m_delayThread s) (m_oldVtable s) (m_kernelResult s) (m_oldACL s) (m_originalPID s) (m_vtable s).
Definition set_kObjAddr (v : Z) (s : MemChunkHax2) : MemChunkHax2 :=
  mk (m_versionData s) (m_nextStep s) (m_arbiter s) (m_mapAddr s) (m_mapSize s) (m_mapResult s) (m_isolatedPage s) (m_isolatingPage s) (m_kObjHandle s) v (m_backup s) (m_delayThread s) (m_oldVtable s) (m_kernelResult s) (m_oldACL s) (m_originalPID s) (m_vtable s).
Definition set_backup (v : Z) (s : MemChunkHax2) : MemChunkHax2 :=
  mk (m_versionData s) (m_nextStep s) (m_arbiter s) (m_mapAddr s) (m_mapSize s) (m_mapResult s) (m_isolatedPage s) (m_isolatingPage s) (m_kObjHandle s) (m_kObjAddr s) v (m_delayThread s) (m_oldVtable s) (m_kernelResult s) (m_oldACL s) (m_originalPID s) (m_vtable s).
Definition set_delayThread (v : Z) (s : MemChunkHax2) : MemChunkHax2 :=
  mk (m_versionData s) (m_nextStep s) (m_arbiter s) (m_mapAddr s) (m_mapSize s) (m_mapResult s) (m_isolatedPage s) (m_isolatingPage s) (m_kObjHandle s) (m_kObjAddr s) (m_backup s) v (m_oldVtable s) (m_kernelResult s) (m_oldACL s) (m_originalPID s) (m_vtable s).
Definition set_oldVtable (v : Z) (s : MemChunkHax2) : MemChunkHax2 :=
  mk (m_versionData s) (m_nextStep s) (m_arbiter s) (m_mapAddr s) (m_mapSize s) (m_mapResult s) (m_isolatedPage s) (m_isolatingPage s) (m_kObjHandle s) (m_kObjAddr s) (m_backup s) (m_delayThread s) v (m_kernelResult s) (m_oldACL s) (m_originalPID s) (m_vtable s).
Definition set_kernelResult (v : Z) (s : MemChunkHax2) : MemChunkHax2 :=
  mk (m_versionData s) (m_nextStep s) (m_arbiter s) (m_mapAddr s) (m_mapSize s) (m_mapResult s) (m_isolatedPage s) (m_isolatingPage s) (m_kObjHandle s) (m_kObjAddr s) (m_backup s) (m_delayThread s) (m_oldVtable s) v (m_oldACL s) (m_originalPID s) (m_vtable s).
Definition set_oldACL (v : list Z) (s : MemChunkHax2) : MemChunkHax2 :=
  mk (m_versionData s) (m_nextStep s) (m_arbiter s) (m_mapAddr s) (m_mapSize s) (m_mapResult s) (m_isolatedPage s) (m_isolatingPage s) (m_kObjHandle s) (m_kObjAddr s) (m_backup s) (m_delayThread s) (m_oldVtable s) (m_kernelResult s) v (m_originalPID s) (m_vtable s).
Definition set_originalPID (v : Z) (s : MemChunkHax2) : MemChunkHax2 :=
  mk (m_versionData s) (m_nextStep s) (m_arbiter s) (m_mapAddr s) (m_mapSize s) (m_mapResult s) (m_isolatedPage s) (m_isolatingPage s) (m_kObjHandle s) (m_kObjAddr s) (m_backup s) (m_delayThread s) (m_oldVtable s) (m_kernelResult s) (m_oldACL s) v (m_vtable s).
Definition set_vtable (v : Z) (s : MemChunkHax2) : MemChunkHax2 :=
  mk (m_versionData s) (m_nextStep s) (m_arbiter s) (m_mapAddr s) (m_mapSize s) (m_mapResult s) (m_isolatedPage s) (m_isolatingPage s) (m_kObjHandle s) (m_kObjAddr s) (m_backup s) (m_delayThread s) (m_oldVtable s) (m_kernelResult s) (m_oldACL s) (m_originalPID s) v.

(** The constructor, given [__sync_get_arbiter()], [__ctru_heap +
    __ctru_heap_size] and the address of [m_vtable].  [m_oldACL] and
    [m_originalPID] are left uninitialised; they are modelled as zero. *)
Definition new (versionData : VersionData) (arbiter heapEnd vtable : Z) : MemChunkHax2 :=
  mk versionData 1 arbiter (u32 heapEnd) (PAGE_SIZE * 2) (-1) 0 0 0 0 0 0 0 (-1)
    (repeat 0 sizeof_KSVCACL) 0 vtable.

Definition invalid_step : Z := MakeError 28 5 KHAX_MODULE 1016.

Definition next_step : M MemChunkHax2 unit :=
  modify_sess (fun s => set_nextStep (m_nextStep s + 1) s).

Definition Step1_Initialize : M MemChunkHax2 Z :=
  s <- get_sess ;;
  if negb (m_nextStep s =? 1) then ret invalid_step
  else
    (* Allow executing threads on core 1. *)
    emit EAptOpenSession ;;
    aptResult <- call (EAPT_SetAppCpuTimeLimit 30) ;;
    if R_FAILED aptResult then ret aptResult
    else
      emit EAptCloseSession ;;
      next_step ;;
      ret 0.

Definition Step2_IsolatePage : M MemChunkHax2 Z :=
  s <- get_sess ;;
  if negb (m_nextStep s =? 2) then ret invalid_step
  else
    (* Isolate a single page between others to ensure using the next pointer. *)
    '(createIsolatedResult, o) <- svcControlMemory (u32 (m_mapAddr s + m_mapSize s)) PAGE_SIZE
                                     MEMOP_ALLOC MEMPERM_READ_WRITE ;;
    modify_sess (set_isolatedPage o) ;;
    if R_FAILED createIsolatedResult then ret createIsolatedResult
    else
      s <- get_sess ;;
      '(createIsolatingResult, o) <- svcControlMemory (u32 (m_isolatedPage s + PAGE_SIZE))
                                        PAGE_SIZE MEMOP_ALLOC MEMPERM_READ_WRITE ;;
      modify_sess (set_isolatingPage o) ;;
      if R_FAILED createIsolatingResult then ret createIsolatingResult
      else
        s <- get_sess ;;
        '(freeIsolatedResult, o) <- svcControlMemory (m_isolatedPage s) PAGE_SIZE
                                       MEMOP_FREE MEMPERM_DONTCARE ;;
        modify_sess (set_isolatedPage o) ;;
        if R_FAILED freeIsolatedResult then ret freeIsolatedResult
        else
          modify_sess (set_isolatedPage 0) ;;
          next_step ;;
          ret 0.

(** [svcCreateEventKAddr(&handle, reset_type, &kaddr)]: result, handle, kernel address. *)
Definition svcCreateEventKAddr (reset_type : Z) : M MemChunkHax2 (Z * Z * Z) :=
  r <- call (ECreateEventKAddr reset_type) ;;
  h <- out ;;
  kaddr <- out ;;
  ret (r, h, kaddr).

Definition Step3e_GrantSVCAccess : M MemChunkHax2 Z :=
  threadACL <- gets_world w_threadACL ;;
  (* Save the old one for diagnostic purposes. *)
  modify_sess (set_oldACL (copy_acl threadACL)) ;;
  (* Set the ACL for the current thread. *)
  modify_world (with_threadACL (copy_acl s_fullAccessACL ++ skipn sizeof_KSVCACL threadACL)) ;;
  ret 0.

Definition Step3d_SVCEntryPoint : M MemChunkHax2 unit :=
  result <- Step3e_GrantSVCAccess ;;
  if negb (result =? 0) then modify_sess (set_kernelResult result)
  else modify_sess (set_kernelResult 0).

(** [Step3c_SVCEntryPointThunk], the destructor slot of [m_vtable]. *)
Definition Step3c_SVCEntryPointThunk : M MemChunkHax2 unit :=
  (* Call intended function. *)
  emit ECallOldDestructor ;;
  Step3d_SVCEntryPoint.

(** [svcCloseHandle] of the event: the kernel calls the destructor slot of
    the event's vtable.  After the race the event lies in the kernel page
    mapped at [m_mapAddr + PAGE_SIZE], so its vtable pointer is the word at
    [vtablePtr]. *)
Definition svcCloseHandle_event (h vtablePtr : Z) : M MemChunkHax2 unit :=
  call (ECloseHandle h) ;;
  vt <- load32 vtablePtr ;;
  s <- get_sess ;;
  if vt =? m_vtable s then Step3c_SVCEntryPointThunk else ret tt.

(** The helper threads of Step3 run concurrently with this method; they are
    modelled by what the main thread observes at its synchronisation points:
    the two arbitration polling loops, the read of [m_mapResult] after them,
    and the wait for [m_mapResult] (with the [m_mapAddr] written by
    [Step3b_AllocateThread]'s svcControlMemory). *)
Definition Step3_OverwriteVtable : M MemChunkHax2 Z :=
  s <- get_sess ;;
  if negb (m_nextStep s =? 3) then ret invalid_step
  else
    let vd := m_versionData s in
    '(createObjResult, h, kaddr) <- svcCreateEventKAddr 0 ;;
    modify_sess (set_kObjHandle h) ;;
    modify_sess (set_kObjAddr kaddr) ;;
    if R_FAILED createObjResult then ret createObjResult
    else
      (* Allocate a buffer for backing up kernel memory. *)
      b <- call (EMalloc PAGE_SIZE) ;;
      modify_sess (set_backup b) ;;
      if b =? 0 then ret (MakeError 26 3 KHAX_MODULE 1011)
      else
        (* Create thread to slow down svcControlMemory execution. *)
        t <- call (EThreadCreate Step3a_DelayThread 0x4000 0x18 1) ;;
        modify_sess (set_delayThread t) ;;
        if t =? 0 then ret (MakeError 26 3 KHAX_MODULE 1011)
        else
          (* Create thread to allocate pages. *)
          t2 <- call (EThreadCreate Step3b_AllocateThread 0x4000 0x3F 1) ;;
          if t2 =? 0 then ret (MakeError 26 3 KHAX_MODULE 1011)
          else
            s <- get_sess ;;
            emit (EArbitrateUntilMapped (m_mapAddr s)) ;;
            (* Overwrite the header "next" pointer to our crafted MemChunkHdr. *)
            store32 (u32 (m_mapAddr s + HeapFreeBlock_m_next))
              (u32 (m_kObjAddr s - m_slabHeapVirtualAddress vd + m_slabHeapPhysicalAddress
                    - m_kernelVirtualToPhysical)) ;;
            emit (EArbitrateUntilMapped (u32 (m_mapAddr s + PAGE_SIZE))) ;;
            (* Back up the kernel page before it is cleared. *)
            memcpy (m_backup s) (u32 (m_mapAddr s + PAGE_SIZE)) PAGE_SIZE ;;
            mr <- call EReadMapResult ;;
            modify_sess (set_mapResult mr) ;;
            if negb (mr =? -1) then ret (MakeError 26 3 KHAX_MODULE 1003)
            else
              (* Wait for memory mapping to complete. *)
              mr <- call EWaitMapResult ;;
              addr <- out ;;
              modify_sess (set_mapResult mr) ;;
              modify_sess (set_mapAddr addr) ;;
              if R_FAILED mr then ret mr
              else
                s <- get_sess ;;
                (* Restore the kernel page backup. *)
                memcpy (u32 (m_mapAddr s + PAGE_SIZE)) (m_backup s) PAGE_SIZE ;;
                (* Get pointer to object vtable. *)
                let vtablePtr := u32 (m_mapAddr s + PAGE_SIZE + Z.land (m_kObjAddr s) 0xFFF - 4) in
                (* Backup old vtable pointer. *)
                old <- load32 vtablePtr ;;
                modify_sess (set_oldVtable old) ;;
                (* Set new vtable pointer. *)
                store32 vtablePtr (m_vtable s) ;;
                (* Close handle, executing kernel-mode code. *)
                svcCloseHandle_event (m_kObjHandle s) vtablePtr ;;
                modify_sess (set_kObjHandle 0) ;;
                (* Restore old vtable pointer. *)
                s <- get_sess ;;
                store32 vtablePtr (m_oldVtable s) ;;
                if negb (m_kernelResult s =? 0) then ret (m_kernelResult s)
                else
                  next_step ;;
                  ret 0.

Definition Step4_GrantServiceAccess : M MemChunkHax2 Z :=
  s <- get_sess ;;
  if negb (m_nextStep s =? 4) then ret invalid_step
  else
    (* Backup the original PID. *)
    '(result, pid) <- svcGetProcessId m_currentKProcessHandle ;;
    modify_sess (set_originalPID pid) ;;
    if negb (result =? 0) then ret result
    else
      (* Patch the PID to 0, granting access to all services. *)
      backdoor_PatchPID ;;
      (* Check whether PID patching succeeded. *)
      '(result, newPID) <- svcGetProcessId m_currentKProcessHandle ;;
      if negb (result =? 0) then
        (* Attempt patching back anyway, for stability reasons. *)
        s <- get_sess ;;
        backdoor_UnpatchPID (m_originalPID s) ;;
        ret result
      else if negb (newPID =? 0) then ret (MakeError 27 11 KHAX_MODULE 1023)
      else
        (* Reinit ctrulib's srv connection to gain access to all services. *)
        emit ESrvExit ;;
        emit ESrvInit ;;
        (* Restore the original PID. *)
        s <- get_sess ;;
        backdoor_UnpatchPID (m_originalPID s) ;;
        (* Check whether PID restoring succeeded. *)
        '(result, newPID) <- svcGetProcessId m_currentKProcessHandle ;;
        if negb (result =? 0) then ret result
        else
          s <- get_sess ;;
          if negb (newPID =? m_originalPID s) then ret (MakeError 27 11 KHAX_MODULE 1023)
          else ret 0.

Definition steps : list (Z * M MemChunkHax2 Z) :=
  [(1, Step1_Initialize); (2, Step2_IsolatePage); (3, Step3_OverwriteVtable);
   (4, Step4_GrantServiceAccess)].

(** [KHAX::MemChunkHax2::~MemChunkHax2]. *)
Definition destroy : M MemChunkHax2 unit :=
  s <- get_sess ;;
  (if m_mapResult s =? 0 then
     '(_, o) <- svcControlMemory (m_mapAddr s) (m_mapSize s) MEMOP_FREE MEMPERM_DONTCARE ;;
     modify_sess (set_mapAddr o)
   else ret tt) ;;
  s <- get_sess ;;
  (if negb (m_delayThread s =? 0) && (m_mapResult s =? -1) then
     (* Set the result to 0 to terminate the delay thread. *)
     modify_sess (set_mapResult 0)
   else ret tt) ;;
  s <- get_sess ;;
  (if negb (m_backup s =? 0) then emit (EFree (m_backup s)) else ret tt) ;;
  s <- get_sess ;;
  (if negb (m_isolatedPage s =? 0) then
     '(_, o) <- svcControlMemory (m_isolatedPage s) PAGE_SIZE MEMOP_FREE MEMPERM_DONTCARE ;;
     modify_sess (set_isolatedPage o) ;;
     modify_sess (set_isolatedPage 0)
   else ret tt) ;;
  s <- get_sess ;;
  (if negb (m_isolatingPage s =? 0) then
     '(_, o) <- svcControlMemory (m_isolatingPage s) PAGE_SIZE MEMOP_FREE MEMPERM_DONTCARE ;;
     modify_sess (set_isolatingPage o) ;;
     modify_sess (set_isolatingPage 0)
   else ret tt) ;;
  s <- get_sess ;;
  (if negb (m_kObjHandle s =? 0) then call (ECloseHandle (m_kObjHandle s)) ;; ret tt
   else ret tt).

End MemChunkHax2.

(** ** [khaxInit] *)

(** The driver runs the steps in order and stops at the first nonzero result. *)
Fixpoint run_steps {T} (ss : list (Z * M T Z)) : M T Z :=
  match ss with
  | [] => ret 0
  | (_, step) :: ss' =>
      result <- step ;;
      if negb (result =? 0) then ret result else run_steps ss'
  end.

Inductive variant := Legacy | Vtable.

(** The dispatch of [khaxInit] on the matched row's kernel version. *)
Definition khaxInit_variant (versionData : VersionData) : option variant :=
  if m_kernelVersion versionData <=? SYSTEM_VERSION 2 46 0 then Some Legacy
  else if m_kernelVersion versionData <=? SYSTEM_VERSION 2 50 9 then Some Vtable
  else None.

(** Runs a method on a fresh session; the session object is local. *)
Definition run_session {T A} (s : T) (m : M T A) (w : World) : A * World :=
  let (a, st) := m (mkSt s w) in (a, world st).

(** [khaxInit] (without the [KHAX_DEBUG] printing).  The session is
    destroyed when it leaves its scope, after the step that failed or after
    the last step; [None] is the destructor still frozen after [fuel]
    sleeps.  The last three arguments are [__sync_get_arbiter()],
    [__ctru_heap + __ctru_heap_size] and the address of the new session's
    [m_vtable]. *)
Definition khaxInit (fuel : nat) (arbiter heapEnd vtable : Z) (w : World) : option Z * World :=
  let (versionData, st) := GetForCurrentSystem (mkSt tt w) in
  let w := world st in
  match versionData with
  | None => (Some (MakeError 27 6 KHAX_MODULE 39), w)
  | Some vd =>
      match khaxInit_variant vd with
      | Some Legacy =>
          run_session (MemChunkHax.new vd)
            (result <- run_steps MemChunkHax.steps ;;
             finished <- MemChunkHax.destroy fuel ;;
             ret (match finished with Some _ => Some result | None => None end)) w
      | Some Vtable =>
          run_session (MemChunkHax2.new vd arbiter heapEnd vtable)
            (result <- run_steps MemChunkHax2.steps ;;
             MemChunkHax2.destroy ;;
             ret (Some result)) w
      | None => (Some 0, w)
      end
  end.

(** The corruption level a session keeps: the legacy session counts broken
    kernel invariants in [m_corrupted]; [MemChunkHax2] has no such field. *)
Class CorruptionLevel (T : Type) := corruption_level : T -> option Z.

#[export] Instance MemChunkHax_CorruptionLevel : CorruptionLevel MemChunkHax.MemChunkHax :=
  fun s => Some (MemChunkHax.m_corrupted s).

#[export] Instance MemChunkHax2_CorruptionLevel : CorruptionLevel MemChunkHax2.MemChunkHax2 :=
  fun _ => None.

(** Legacy sessions as they can exist: built by the constructor, then any
    step method called in any order, with the host free to change between
    calls. *)
Inductive reachable : St MemChunkHax.MemChunkHax -> Prop :=
| reach_new vd w : reachable (mkSt (MemChunkHax.new vd) w)
| reach_step st n step :
    reachable st -> In (n, step) MemChunkHax.steps -> reachable (snd (step st))
| reach_world s w w' : reachable (mkSt s w) -> reachable (mkSt s w').

(** ** Concrete systems *)

(** libctru's [osConvertVirtToPhys] of the same period: the linear heap at
    0x14000000, VRAM, DSP memory, and the FIRM 8.0 linear heap alias at
    0x30000000. *)
Definition libctru_osConvertVirtToPhys (vaddr : Z) : Z :=
  if (0x14000000 <=? vaddr) && (vaddr <? 0x1C000000) then vaddr + 0x0C000000
  else if (0x1F000000 <=? vaddr) && (vaddr <? 0x1F600000) then vaddr - 0x07000000
  else if (0x1FF00000 <=? vaddr) && (vaddr <? 0x1FF80000) then vaddr
  else if (0x30000000 <=? vaddr) && (vaddr <? 0x40000000) then vaddr - 0x10000000
  else 0.

Definition no_row : VersionData := mkVersionData false 0 0 0 0 0 0 0 KProcess_1_0_0_Old.

(** Old 3DS, kernel 2.44.6 (8.0.0): a legacy row. *)
Definition row_2_44_6_old : VersionData := nth 7 s_versionTable no_row.

(** New 3DS, kernel 2.48.3 (9.3.0): a vtable-hijack row. *)
Definition row_2_48_3_new : VersionData := nth 16 s_versionTable no_row.

(** Free-list links of the freed third and fifth pages as the kernel leaves
    them, for a six-page block at 0x14000000. *)
Definition legacy_mem : Z -> Z :=
  store32_mem (store32_mem (fun _ => 0) (0x14002000 + HeapFreeBlock_m_next) 0xE0004000)
    (0x14004000 + HeapFreeBlock_m_prev) 0xE0002000.

(** Host answers for the legacy steps, up to the free of the second page in
    Step5, whose result is [free1]. *)
Definition legacy_replies (free1 : Z) : list Z :=
  [ (* Step2 *) 0; 0x14000000; 0x14100000;
    (* Step3 *) 0; 0; 0; 0;
    (* Step4 *) 0; 0; 0x08000000; 0; 0; 0x08000000;
    (* Step5 *) 0; 0; 0x08000000; 0; 0; 0x08000000; free1; 0 ].

(** A system on which all seven legacy steps succeed (PID 5). *)
Definition legacy_world_ok : World :=
  mkWorld (legacy_replies 0 ++ [0; 5; 0; 0; 0; 5]) [] legacy_mem libctru_osConvertVirtToPhys
    (repeat 0 16) 5 false.

(** The same system where the kernel refuses to free the second page. *)
Definition legacy_world_free_fails : World :=
  mkWorld (legacy_replies (-1)) [] legacy_mem libctru_osConvertVirtToPhys (repeat 0 16) 5 false.

(** Host answers for the four [MemChunkHax2] steps, all succeeding (PID 5). *)
Definition vtable_world_ok : World :=
  mkWorld [ (* Step1 *) 0;
            (* Step2 *) 0; 0x08002000; 0; 0x08003000; 0; 0;
            (* Step3 *) 0; 0x20; 0xFFF70010; 0x08100000; 1; 2; -1; 0; 0x08000000; 0;
            (* Step4 *) 0; 5; 0; 0; 0; 5 ]
    [] (fun _ => 0) libctru_osConvertVirtToPhys (repeat 0 16) 5 false.

Definition vtable_session : MemChunkHax2.MemChunkHax2 :=
  MemChunkHax2.new row_2_48_3_new 0x1234 0x08000000 0x00120000.

(** The legacy session after a complete successful run on 2.44.6. *)
Definition legacy_done_session : St MemChunkHax.MemChunkHax :=
  snd (run_steps MemChunkHax.steps (mkSt (MemChunkHax.new row_2_44_6_old) legacy_world_ok)).

(** The legacy session after the run that stops in Step5. *)
Definition legacy_failed_session : St MemChunkHax.MemChunkHax :=
  snd (run_steps MemChunkHax.steps
         (mkSt (MemChunkHax.new row_2_44_6_old) legacy_world_free_fails)).

(** A fresh host whose calls answer with [replies], in order. *)
Definition world_with_replies (replies : list Z) : World :=
  mkWorld replies [] (fun _ => 0) libctru_osConvertVirtToPhys (repeat 0 16) 5 false.

(** The legacy run on 2.44.6 after its first five steps. *)
Definition legacy_step6_state : St MemChunkHax.MemChunkHax :=
  snd (run_steps (firstn 5 MemChunkHax.steps)
         (mkSt (MemChunkHax.new row_2_44_6_old) legacy_world_ok)).

(** A legacy session as a successful Step3 leaves it: six pages at
    0x14000000 with the third and fifth freed, the extra block at
    0x14100000. *)
Definition legacy_step4_session : MemChunkHax.MemChunkHax :=
  MemChunkHax.mk row_2_44_6_old 4 0 0x14000000 43 0x14100000 (repeat 0 sizeof_KSVCACL) 0.

(** Host answers for Step4 on that session (cache invalidations, GPU
    copies, the cache-nuking allocations). *)
Definition legacy_step4_world : World :=
  mkWorld [0; 0; 0x08000000; 0; 0; 0x08000000] [] legacy_mem libctru_osConvertVirtToPhys
    (repeat 0 16) 5 false.

(** The [MemChunkHax2] run on 2.48.3 after its first two steps. *)
Definition vtable_step3_state : St MemChunkHax2.MemChunkHax2 :=
  snd (run_steps (firstn 2 MemChunkHax2.steps) (mkSt vtable_session vtable_world_ok)).

(** * Proofs *)

(** ** Words and byte memory *)

Lemma u32_range z : 0 <= u32 z < 2 ^ 32.
Proof. unfold u32. apply Z.mod_pos_bound. lia. Qed.

Lemma u32_idem z : u32 (u32 z) = u32 z.
Proof. unfold u32. apply Z.mod_mod. lia. Qed.

Lemma u32_sub_add x k : u32 (u32 (x - k) + k) = u32 x.
Proof.
  unfold u32. rewrite Z.add_mod_idemp_l by lia. f_equal. lia.
Qed.

Lemma bytes32 x : 0 <= x < 2 ^ 32 ->
  x mod 256 + Z.shiftl (Z.shiftr x 8 mod 256) 8 + Z.shiftl (Z.shiftr x 16 mod 256) 16
  + Z.shiftl (Z.shiftr x 24) 24 = x.
Proof.
  intros H.
  rewrite !Z.shiftl_mul_pow2, !Z.shiftr_div_pow2 by lia.
  change (2 ^ 8) with 256; change (2 ^ 16) with 65536; change (2 ^ 24) with 16777216.
  change (2 ^ 32) with 4294967296 in H.
  replace 65536 with (256 * 256) by reflexivity.
  replace 16777216 with (256 * 256 * 256) by reflexivity.
  rewrite <- !Z.div_div by lia.
  pose proof (Z.div_mod x 256 ltac:(lia)).
  pose proof (Z.div_mod (x / 256) 256 ltac:(lia)).
  pose proof (Z.div_mod (x / 256 / 256) 256 ltac:(lia)).
  lia.
Qed.

Lemma load32_store32_same m a v : load32_mem (store32_mem m a v) a = u32 v.
Proof.
  unfold load32_mem, store32_mem, upd_byte.
  repeat match goal with
         | |- context [?x =? ?y] =>
             let E := fresh in destruct (Z.eqb_spec x y) as [E|E]; try lia
         end.
  apply bytes32, u32_range.
Qed.

Lemma load32_copy_in m d s n off : 0 <= off -> off + 4 <= n ->
  load32_mem (copy_mem m d s n) (d + off) = load32_mem m (s + off).
Proof.
  intros H1 H2. unfold load32_mem, copy_mem.
  repeat match goal with
         | |- context [(?a <=? ?x) && (?x <? ?b)] =>
             replace ((a <=? x) && (x <? b)) with true
               by (symmetry; apply andb_true_intro; split; [apply Z.leb_le | apply Z.ltb_lt]; lia)
         end.
  replace (s + (d + off - d)) with (s + off) by lia.
  replace (s + (d + off + 1 - d)) with (s + off + 1) by lia.
  replace (s + (d + off + 2 - d)) with (s + off + 2) by lia.
  replace (s + (d + off + 3 - d)) with (s + off + 3) by lia.
  reflexivity.
Qed.

Ltac unfold_monad :=
  unfold call, emit, out, get_sess, modify_sess, gets_world, modify_world, bind, ret,
    load32, store32, store8, memcpy in *.

Ltac sym :=
  repeat (cbn -[u32 u32_not Z.shiftl load32_mem store32_mem copy_mem upd_byte ConvertLinearUserVAToKernelVA] in *;
          match goal with
          | |- context [if ?c then _ else _] => let E := fresh "E" in destruct c eqn:E
          end);
  cbn -[u32 u32_not Z.shiftl load32_mem store32_mem copy_mem upd_byte ConvertLinearUserVAToKernelVA] in *.

Module LegacyProofs.
Import MemChunkHax.

Ltac unfold_legacy :=
  unfold Step1_Initialize, Step2_AllocateMemory, Step3_SurroundFree, Step4_VerifyExpectedLayout,
    Step5_CorruptCreateThread, Step6_ExecuteSVCCode, Step6b_SVCEntryPoint,
    Step6c_UndoCreateThreadPatch, Step6d_FixHeapCorruption, Step6e_GrantSVCAccess,
    Step7_GrantServiceAccess, kernel_coalesce, GSPwn, NukeDataCache, svcControlMemory,
    svcGetProcessId, backdoor_PatchPID, backdoor_UnpatchPID, userInvalidateDataCache,
    userFlushDataCache, userDmb, userDsb, userFlushPrefetch, kernelCleanDataCacheLineWithMva,
    kernelInvalidateInstructionCacheLineWithMva, clear_allocated, ConvertVA in *;
  unfold_monad.

Lemma Step5_success s w :
  fst (Step5_CorruptCreateThread (mkSt s w)) = 0 ->
  m_corrupted (sess (snd (Step5_CorruptCreateThread (mkSt s w)))) = m_corrupted s + 3 /\
  w_createThreadPatched (world (snd (Step5_CorruptCreateThread (mkSt s w)))) = true.
Proof.
  unfold_legacy. sym; intros H; try discriminate; try (rewrite H in *; discriminate).
  - split; [lia | reflexivity].
  - exfalso.
    rewrite load32_copy_in in E5.
    rewrite load32_store32_same in E5.
    unfold HeapFreeBlock_m_prev in E5.
    rewrite u32_idem, u32_sub_add, Z.eqb_refl in E5. discriminate.
    all: unfold HeapFreeBlock_m_next, sizeof_ExtraLinearMemory; lia.
Qed.

Ltac facts_tac :=
  unfold_legacy; sym;
  try (intros; match goal with H : _ = _ |- _ => rewrite H in *; discriminate end);
  first [ split; [reflexivity | left; reflexivity]
        | split; [reflexivity | right; split; lia]
        | left; split; [reflexivity | lia]
        | right; split; [lia | split; [lia | lia]]
        | left; split; reflexivity
        | right; split; [lia | split; [lia | left; lia]]
        | right; split; [lia | split; [lia | right; lia]]
        | split; reflexivity ].

Lemma Step1_facts s w :
  let st' := snd (Step1_Initialize (mkSt s w)) in
  m_corrupted (sess st') = m_corrupted s /\
  (m_nextStep (sess st') = m_nextStep s \/ (m_nextStep s = 1 /\ m_nextStep (sess st') = 2)).
Proof. facts_tac. Qed.

Lemma Step2_facts s w :
  let st' := snd (Step2_AllocateMemory (mkSt s w)) in
  m_corrupted (sess st') = m_corrupted s /\
  (m_nextStep (sess st') = m_nextStep s \/ (m_nextStep s = 2 /\ m_nextStep (sess st') = 3)).
Proof. facts_tac. Qed.

Lemma Step3_facts s w :
  let st' := snd (Step3_SurroundFree (mkSt s w)) in
  m_corrupted (sess st') = m_corrupted s /\
  (m_nextStep (sess st') = m_nextStep s \/ (m_nextStep s = 3 /\ m_nextStep (sess st') = 4)).
Proof. facts_tac. Qed.

Lemma Step4_facts s w :
  let st' := snd (Step4_VerifyExpectedLayout (mkSt s w)) in
  m_corrupted (sess st') = m_corrupted s /\
  (m_nextStep (sess st') = m_nextStep s \/ (m_nextStep s = 4 /\ m_nextStep (sess st') = 5)).
Proof. facts_tac. Qed.

Lemma Step5_facts s w :
  let st' := snd (Step5_CorruptCreateThread (mkSt s w)) in
  (m_nextStep (sess st') = m_nextStep s /\ m_corrupted s <= m_corrupted (sess st')) \/
  (m_nextStep s = 5 /\ m_nextStep (sess st') = 6 /\ m_corrupted (sess st') = m_corrupted s + 3).
Proof. facts_tac. Qed.

Lemma Step6_facts s w :
  let st' := snd (Step6_ExecuteSVCCode (mkSt s w)) in
  (m_nextStep (sess st') = m_nextStep s /\ m_corrupted (sess st') = m_corrupted s) \/
  (m_nextStep s = 6 /\ m_nextStep (sess st') = 7 /\
   (m_corrupted (sess st') = m_corrupted s \/ m_corrupted (sess st') = m_corrupted s - 3)).
Proof. facts_tac. Qed.

Lemma Step7_facts s w :
  let st' := snd (Step7_GrantServiceAccess (mkSt s w)) in
  m_nextStep (sess st') = m_nextStep s /\ m_corrupted (sess st') = m_corrupted s.
Proof. facts_tac. Qed.

Lemma Step6_patched s w :
  w_createThreadPatched w = true ->
  fst (Step6_ExecuteSVCCode (mkSt s w)) = 0 ->
  m_corrupted (sess (snd (Step6_ExecuteSVCCode (mkSt s w)))) = m_corrupted s - 3.
Proof.
  intros Hp. unfold_legacy. sym; intros H; try discriminate; try congruence. lia.
Qed.

(** Symbolic evaluation that keeps the step methods folded. *)
Ltac cbn_keep_goal :=
  cbn -[Step1_Initialize Step2_AllocateMemory Step3_SurroundFree Step4_VerifyExpectedLayout
        Step5_CorruptCreateThread Step6_ExecuteSVCCode Step7_GrantServiceAccess].
Ltac cbn_keep H :=
  cbn -[Step1_Initialize Step2_AllocateMemory Step3_SurroundFree Step4_VerifyExpectedLayout
        Step5_CorruptCreateThread Step6_ExecuteSVCCode Step7_GrantServiceAccess] in H |- *.
Ltac cbn_keep_all :=
  cbn -[Step1_Initialize Step2_AllocateMemory Step3_SurroundFree Step4_VerifyExpectedLayout
        Step5_CorruptCreateThread Step6_ExecuteSVCCode Step7_GrantServiceAccess] in *.

Lemma run_steps_corrupted vd w :
  fst (run_steps steps (mkSt (new vd) w)) = 0 ->
  m_corrupted (sess (snd (run_steps steps (mkSt (new vd) w)))) = 0.
Proof.
  unfold run_steps, steps, bind, ret.
  pose proof (Step1_facts (new vd) w) as F1; cbv zeta in F1.
  destruct (Step1_Initialize (mkSt (new vd) w)) as [r1 [s1 w1]]; cbn_keep F1.
  destruct (r1 =? 0) eqn:R1; cbn_keep_goal; [|intros H; rewrite H in R1; discriminate].
  pose proof (Step2_facts s1 w1) as F2; cbv zeta in F2.
  destruct (Step2_AllocateMemory (mkSt s1 w1)) as [r2 [s2 w2]]; cbn_keep F2.
  destruct (r2 =? 0) eqn:R2; cbn_keep_goal; [|intros H; rewrite H in R2; discriminate].
  pose proof (Step3_facts s2 w2) as F3; cbv zeta in F3.
  destruct (Step3_SurroundFree (mkSt s2 w2)) as [r3 [s3 w3]]; cbn_keep F3.
  destruct (r3 =? 0) eqn:R3; cbn_keep_goal; [|intros H; rewrite H in R3; discriminate].
  pose proof (Step4_facts s3 w3) as F4; cbv zeta in F4.
  destruct (Step4_VerifyExpectedLayout (mkSt s3 w3)) as [r4 [s4 w4]]; cbn_keep F4.
  destruct (r4 =? 0) eqn:R4; cbn_keep_goal; [|intros H; rewrite H in R4; discriminate].
  pose proof (Step5_success s4 w4) as F5.
  destruct (Step5_CorruptCreateThread (mkSt s4 w4)) as [r5 [s5 w5]]; cbn_keep F5.
  destruct (r5 =? 0) eqn:R5; cbn_keep_goal; [|intros H; rewrite H in R5; discriminate].
  apply Z.eqb_eq in R5; destruct (F5 R5) as [C5 P5].
  pose proof (Step6_patched s5 w5 P5) as F6.
  destruct (Step6_ExecuteSVCCode (mkSt s5 w5)) as [r6 [s6 w6]]; cbn_keep F6.
  destruct (r6 =? 0) eqn:R6; cbn_keep_goal; [|intros H; rewrite H in R6; discriminate].
  apply Z.eqb_eq in R6; specialize (F6 R6).
  pose proof (Step7_facts s6 w6) as F7; cbv zeta in F7.
  destruct (Step7_GrantServiceAccess (mkSt s6 w6)) as [r7 [s7 w7]]; cbn_keep F7.
  destruct (r7 =? 0) eqn:R7; cbn_keep_goal; [|intros H; rewrite H in R7; discriminate].
  intros _. cbn_keep_all. lia.
Qed.
End LegacyProofs.

(** ** Reachable legacy sessions *)

Lemma reachable_inv st : reachable st ->
  0 <= MemChunkHax.m_corrupted (sess st) /\
  (MemChunkHax.m_nextStep (sess st) = 6 -> 3 <= MemChunkHax.m_corrupted (sess st)).
Proof.
  induction 1 as [vd w | st n step Hr IH Hin | s w w' Hr IH].
  - cbn. lia.
  - destruct st as [s w]. cbn in IH.
    cbn in Hin; repeat destruct Hin as [Hin | Hin]; try contradiction;
      injection Hin as <- <-.
    + destruct (LegacyProofs.Step1_facts s w) as [C [N | [N1 N2]]]; cbn zeta in *; lia.
    + destruct (LegacyProofs.Step2_facts s w) as [C [N | [N1 N2]]]; cbn zeta in *; lia.
    + destruct (LegacyProofs.Step3_facts s w) as [C [N | [N1 N2]]]; cbn zeta in *; lia.
    + destruct (LegacyProofs.Step4_facts s w) as [C [N | [N1 N2]]]; cbn zeta in *; lia.
    + destruct (LegacyProofs.Step5_facts s w) as [[N C] | [N1 [N2 C]]]; cbn zeta in *; lia.
    + destruct (LegacyProofs.Step6_facts s w) as [[N C] | [N1 [N2 [C | C]]]]; cbn zeta in *; lia.
    + destruct (LegacyProofs.Step7_facts s w) as [N C]; cbn zeta in *; lia.
  - exact IH.
Qed.

Lemma run_steps_reachable ss st :
  (forall n step, In (n, step) ss -> In (n, step) MemChunkHax.steps) ->
  reachable st -> reachable (snd (run_steps ss st)).
Proof.
  revert st. induction ss as [| [n step] ss IH]; intros st Hincl Hr.
  - exact Hr.
  - cbn [run_steps]. unfold bind.
    assert (Hr' : reachable (snd (step st))).
    { apply (reach_step st n step Hr). apply Hincl. left. reflexivity. }
    destruct (step st) as [a st'].
    destruct (negb (a =? 0)).
    + exact Hr'.
    + apply IH; [intros n' step' H; apply Hincl; right; exact H | exact Hr'].
Qed.

(** ** The destructor *)

Lemma freeze_spec {T} fuel (st : St T) :
  fst (freeze fuel st) = None /\ sess (snd (freeze fuel st)) = sess st /\
  w_trace (world (snd (freeze fuel st))) =
    w_trace (world st) ++ repeat (ESleepThread 60000000000) fuel.
Proof.
  revert st. induction fuel as [| fuel IH]; intros st.
  - cbn. rewrite app_nil_r. auto.
  - cbn [freeze]. unfold bind, emit.
    destruct (IH {| sess := sess st;
                    world := with_trace (w_trace (world st) ++ [ESleepThread 60000000000])
                               (world st) |}) as [H1 [H2 H3]].
    cbn in H1, H2, H3 |- *. rewrite H1, H2, H3, <- app_assoc. auto.
Qed.

Lemma land_shiftl_1 a x : 0 <= x ->
  (Z.land a (Z.shiftl 1 x) =? 0) = negb (Z.testbit a x).
Proof.
  intros Hx. rewrite Z.shiftl_1_l.
  destruct (Z.testbit a x) eqn:B; cbn.
  - apply Z.eqb_neq. intros H.
    assert (Z.testbit (Z.land a (2 ^ x)) x = false) by (rewrite H; apply Z.testbit_0_l).
    rewrite Z.land_spec, B, Z.pow2_bits_true in H0 by lia. discriminate.
  - apply Z.eqb_eq. apply Z.bits_inj'. intros i Hi.
    rewrite Z.land_spec, Z.testbit_0_l, Z.pow2_bits_eqb by lia.
    destruct (Z.eqb_spec x i); [subst; rewrite B | apply andb_false_r]; reflexivity.
Qed.

Lemma testbit_clear a k x : 0 <= x < 32 ->
  Z.testbit (Z.land a (u32_not k)) x = Z.testbit a x && negb (Z.testbit (u32 k) x).
Proof.
  intros Hx. unfold u32_not.
  rewrite Z.land_spec, Z.lxor_spec.
  replace (2 ^ 32 - 1) with (Z.ones 32) by reflexivity.
  rewrite Z.ones_spec_low by lia.
  destruct (Z.testbit (u32 k) x); reflexivity.
Qed.

Section FreePages.
Import MemChunkHax.

Lemma free_pages_cons x xs s w :
  free_pages (x :: xs) (mkSt s w) =
  free_pages xs (mkSt s (if negb (Z.land (m_overwriteAllocated s) (Z.shiftl 1 x) =? 0)
                         then with_replies (tl (tl (w_replies w)))
                                (with_trace (w_trace w ++
                                               [EControlMemory (page s x) PAGE_SIZE MEMOP_FREE 0])
                                   (with_replies (tl (w_replies w)) w))
                         else w)).
Proof.
  cbn [free_pages]. unfold bind, get_sess, svcControlMemory, call, out, ret. cbn [sess world].
  destruct (negb _); reflexivity.
Qed.

(** The frees the legacy destructor issues for the pages of [xs]. *)
Lemma free_pages_spec xs s w :
  (forall x, In x xs -> 0 <= x) ->
  sess (snd (free_pages xs (mkSt s w))) = s /\
  w_trace (world (snd (free_pages xs (mkSt s w)))) =
    w_trace w ++ map (fun x => EControlMemory (page s x) PAGE_SIZE MEMOP_FREE 0)
                     (filter (fun x => Z.testbit (m_overwriteAllocated s) x) xs).
Proof.
  revert w. induction xs as [| x xs IH]; intros w Hpos.
  - cbn. rewrite app_nil_r. auto.
  - rewrite free_pages_cons, land_shiftl_1 by (apply Hpos; left; reflexivity).
    assert (Hpos' : forall y, In y xs -> 0 <= y) by (intros y Hy; apply Hpos; right; exact Hy).
    cbn [filter]. destruct (Z.testbit (m_overwriteAllocated s) x); cbn [negb].
    + match goal with
      | |- context [free_pages xs {| sess := s; world := ?W |}] =>
          destruct (IH W Hpos') as [H1 H2]
      end.
      rewrite H1, H2. cbn. rewrite <- app_assoc. auto.
    + apply IH, Hpos'.
Qed.

Lemma destroy_corrupted s w fuel : m_corrupted s > 0 ->
  fst (destroy fuel (mkSt s w)) = None /\
  w_trace (world (snd (destroy fuel (mkSt s w)))) =
    w_trace w ++ repeat (ESleepThread 60000000000) fuel.
Proof.
  intros Hc. unfold destroy, bind, get_sess. cbn [sess world].
  replace (m_corrupted s >? 0) with true by (symmetry; apply Z.gtb_lt; lia).
  cbv beta iota. destruct (freeze_spec fuel (mkSt s w)) as [H1 [_ H3]].
  split; [exact H1 | rewrite H3; reflexivity].
Qed.

Lemma destroy_clean s w fuel : m_corrupted s <= 0 ->
  fst (destroy fuel (mkSt s w)) = Some tt /\
  w_trace (world (snd (destroy fuel (mkSt s w)))) =
    w_trace w ++
    (if m_overwriteMemory s =? 0 then []
     else map (fun x => EControlMemory (page s x) PAGE_SIZE MEMOP_FREE 0)
              (filter (fun x => Z.testbit (m_overwriteAllocated s) x) [0; 1; 2; 3; 4; 5])) ++
    (if m_extraLinear s =? 0 then [] else [ELinearFree (m_extraLinear s)]).
Proof.
  intros Hc. unfold destroy, bind, get_sess. cbn [sess world].
  replace (m_corrupted s >? 0) with false by (symmetry; rewrite Z.gtb_ltb; apply Z.ltb_ge; lia).
  assert (Hw : exists w', sess (snd ((if negb (m_overwriteMemory s =? 0)
                                      then free_pages [0; 1; 2; 3; 4; 5] else ret tt)
                                     (mkSt s w))) = s /\
                          world (snd ((if negb (m_overwriteMemory s =? 0)
                                       then free_pages [0; 1; 2; 3; 4; 5] else ret tt)
                                      (mkSt s w))) = w' /\
                          w_trace w' = w_trace w ++
                            (if m_overwriteMemory s =? 0 then []
                             else map (fun x => EControlMemory (page s x) PAGE_SIZE MEMOP_FREE 0)
                                      (filter (fun x => Z.testbit (m_overwriteAllocated s) x)
                                         [0; 1; 2; 3; 4; 5]))).
  { destruct (m_overwriteMemory s =? 0); cbn [negb].
    - eexists. cbn. rewrite app_nil_r. auto.
    - destruct (free_pages_spec [0; 1; 2; 3; 4; 5] s w) as [H1 H2].
      + intros x Hx. cbn in Hx. intuition lia.
      + eexists. eauto. }
  destruct Hw as [w' [H1 [H2 H3]]].
  unfold bind.
  destruct ((if negb (m_overwriteMemory s =? 0) then free_pages [0; 1; 2; 3; 4; 5] else ret tt)
              (mkSt s w)) as [u [s' w'']].
  cbn in H1, H2. subst s' w''.
  unfold get_sess, emit, ret. cbn [sess world].
  destruct (m_extraLinear s =? 0); cbn; rewrite H3; [rewrite !app_nil_r | rewrite <- app_assoc]; auto.
Qed.

End FreePages.

(** ** Version lookup *)

Lemma search_table_sound table kernelVersion isNew3DS e :
  search_table table kernelVersion isNew3DS = Some e ->
  In e table /\ m_kernelVersion e = kernelVersion /\ m_new3DS e = isNew3DS.
Proof.
  induction table as [| entry rest IH]; cbn; [discriminate |].
  destruct ((m_new3DS entry && negb isNew3DS) || (negb (m_new3DS entry) && isNew3DS)) eqn:F.
  - intros H. destruct (IH H) as [? ?]. auto.
  - destruct (m_kernelVersion entry =? kernelVersion) eqn:K; cbn.
    + intros [= <-]. apply Z.eqb_eq in K.
      destruct (m_new3DS entry), isNew3DS; cbn in F; try discriminate; auto.
    + intros H. destruct (IH H) as [? ?]. auto.
Qed.

Lemma search_table_none table kernelVersion isNew3DS :
  (forall e, In e table -> ~ (m_kernelVersion e = kernelVersion /\ m_new3DS e = isNew3DS)) ->
  search_table table kernelVersion isNew3DS = None.
Proof.
  intros H. destruct (search_table table kernelVersion isNew3DS) as [e |] eqn:S; [| reflexivity].
  destruct (search_table_sound _ _ _ _ S) as [Hin Hk]. exfalso. exact (H e Hin Hk).
Qed.

Lemma search_table_rows r :
  In r s_versionTable ->
  search_table s_versionTable (m_kernelVersion r) (m_new3DS r) = Some r.
Proof.
  intros Hin. cbn [s_versionTable In] in Hin.
  repeat destruct Hin as [<- | Hin]; [reflexivity .. | contradiction].
Qed.

(** C2: [GetForCurrentSystem] answers with the row whose kernel version and
    New 3DS flag both equal the system's (the kernel version it reads and
    the flag [IsNew3DS] reports), and with [nullptr] when no row has that
    pair; whatever it returns is a row with that exact pair. *)
Theorem GetForCurrentSystem_exact {T} (st st1 st2 : St T) kernelVersion isNew3DS :
  osGetKernelVersion st = (kernelVersion, st1) ->
  IsNew3DS kernelVersion st1 = ((0, isNew3DS), st2) ->
  (forall r, In r s_versionTable -> m_kernelVersion r = kernelVersion ->
             m_new3DS r = isNew3DS -> fst (GetForCurrentSystem st) = Some r) /\
  ((forall r, In r s_versionTable ->
              ~ (m_kernelVersion r = kernelVersion /\ m_new3DS r = isNew3DS)) ->
   fst (GetForCurrentSystem st) = None) /\
  (forall r, fst (GetForCurrentSystem st) = Some r ->
             In r s_versionTable /\ m_kernelVersion r = kernelVersion /\ m_new3DS r = isNew3DS).
Proof.
  intros H1 H2.
  assert (HG : fst (GetForCurrentSystem st) = search_table s_versionTable kernelVersion isNew3DS).
  { unfold GetForCurrentSystem, bind at 1. rewrite H1. unfold bind. rewrite H2. reflexivity. }
  rewrite HG. split; [| split].
  - intros r Hin <- <-. apply search_table_rows, Hin.
  - apply search_table_none.
  - apply search_table_sound.
Qed.

(** C10: below kernel 2.44.6 [IsNew3DS] answers "not a New 3DS" with result
    0 and no further host call after reading the kernel version; from 2.44.6
    on it calls [APT_CheckNew3DS] once, returns its error with the answer
    forced to false when it fails, and its answer otherwise. *)
Theorem IsNew3DS_threshold {T} (known : Z) (st st1 : St T) kernelVersion :
  IsNew3DS_kernelVersion known st = (kernelVersion, st1) ->
  (kernelVersion < SYSTEM_VERSION 2 44 6 -> IsNew3DS known st = ((0, false), st1)) /\
  (SYSTEM_VERSION 2 44 6 <= kernelVersion ->
   fst (IsNew3DS known st) =
     (let error := hd 0 (w_replies (world st1)) in
      if error =? 0 then (0, negb (hd 0 (tl (w_replies (world st1))) =? 0))
      else (error, false)) /\
   w_trace (world (snd (IsNew3DS known st))) = w_trace (world st1) ++ [EAPT_CheckNew3DS]).
Proof.
  intros H. unfold IsNew3DS, bind. rewrite H. split; intros Hk.
  - replace (kernelVersion >=? SYSTEM_VERSION 2 44 6) with false
      by (symmetry; rewrite Z.geb_leb; apply Z.leb_gt; exact Hk).
    reflexivity.
  - replace (kernelVersion >=? SYSTEM_VERSION 2 44 6) with true
      by (symmetry; rewrite Z.geb_leb; apply Z.leb_le; exact Hk).
    unfold APT_CheckNew3DS, call, out, bind, ret. cbn.
    destruct (hd 0 (w_replies (world st1)) =? 0); cbn; auto.
Qed.

(** ** Step sequencing *)

Lemma guard_invalid {T} (f : T -> Z) (n e : Z) (k : T -> M T Z) (st : St T) :
  f (sess st) <> n ->
  (s <- get_sess ;; if negb (f s =? n) then ret e else k s) st = (e, st).
Proof.
  intros H. unfold bind, get_sess, ret.
  rewrite (proj2 (Z.eqb_neq _ _) H). reflexivity.
Qed.

(** C3: every step method of both sessions, called when the session's next
    step is not its own number, returns MakeError(28, 5, KHAX_MODULE, 1016)
    and changes neither the session nor the host. *)
Theorem steps_out_of_order :
  (forall n step st, In (n, step) MemChunkHax.steps ->
     MemChunkHax.m_nextStep (sess st) <> n ->
     step st = (MakeError 28 5 KHAX_MODULE 1016, st)) /\
  (forall n step st, In (n, step) MemChunkHax2.steps ->
     MemChunkHax2.m_nextStep (sess st) <> n ->
     step st = (MakeError 28 5 KHAX_MODULE 1016, st)).
Proof.
  split; intros n step st Hin Hn; cbn in Hin;
    repeat destruct Hin as [Hin | Hin]; try contradiction; injection Hin as <- <-;
    eapply guard_invalid; exact Hn.
Qed.

(** C4: a legacy session whose corruption counter is nonzero when it is
    destroyed never finishes its destructor: after any number of iterations
    it is still sleeping, and it has done nothing but sleep. *)
Theorem destroy_corrupted_never_returns st fuel :
  reachable st -> MemChunkHax.m_corrupted (sess st) <> 0 ->
  fst (MemChunkHax.destroy fuel st) = None /\
  w_trace (world (snd (MemChunkHax.destroy fuel st))) =
    w_trace (world st) ++ repeat (ESleepThread 60000000000) fuel.
Proof.
  intros Hr Hc. destruct (reachable_inv st Hr) as [Hpos _].
  destruct st as [s w]. cbn in *.
  apply destroy_corrupted. lia.
Qed.

(** ** Address translation *)

Lemma table_fcram vd : In vd s_versionTable ->
  0 <= m_fcramVirtualAddress vd /\ 0 < m_fcramSize vd /\
  m_fcramVirtualAddress vd + m_fcramSize vd <= 2 ^ 32.
Proof.
  intros Hin. cbn [s_versionTable In] in Hin.
  repeat destruct Hin as [<- | Hin]; try contradiction; cbn; lia.
Qed.

(** C5, amended: for a table row, an address whose translated physical
    address lies in [m_fcramPhysicalAddress, m_fcramPhysicalAddress +
    m_fcramSize) becomes that physical address plus (m_fcramVirtualAddress -
    m_fcramPhysicalAddress); any other address (a failed translation included)
    becomes 0 (null).  Two addresses with the same non-null result have the
    same physical address. *)
Theorem ConvertLinearUserVAToKernelVA_spec osConvertVirtToPhys vd :
  In vd s_versionTable ->
  (forall address,
     let physical := u32 (osConvertVirtToPhys address) in
     (m_fcramPhysicalAddress <= physical < m_fcramPhysicalAddress + m_fcramSize vd ->
      ConvertLinearUserVAToKernelVA osConvertVirtToPhys vd address =
        physical + (m_fcramVirtualAddress vd - m_fcramPhysicalAddress)) /\
     (~ (m_fcramPhysicalAddress <= physical < m_fcramPhysicalAddress + m_fcramSize vd) ->
      ConvertLinearUserVAToKernelVA osConvertVirtToPhys vd address = 0)) /\
  (forall a1 a2,
     ConvertLinearUserVAToKernelVA osConvertVirtToPhys vd a1 <> 0 ->
     ConvertLinearUserVAToKernelVA osConvertVirtToPhys vd a1 =
       ConvertLinearUserVAToKernelVA osConvertVirtToPhys vd a2 ->
     u32 (osConvertVirtToPhys a1) = u32 (osConvertVirtToPhys a2)).
Proof.
  intros Hin. destruct (table_fcram vd Hin) as [Hv [Hs Hvs]].
  assert (Hall : forall address,
     let physical := u32 (osConvertVirtToPhys address) in
     (m_fcramPhysicalAddress <= physical < m_fcramPhysicalAddress + m_fcramSize vd ->
      ConvertLinearUserVAToKernelVA osConvertVirtToPhys vd address =
        physical + (m_fcramVirtualAddress vd - m_fcramPhysicalAddress)) /\
     (~ (m_fcramPhysicalAddress <= physical < m_fcramPhysicalAddress + m_fcramSize vd) ->
      ConvertLinearUserVAToKernelVA osConvertVirtToPhys vd address = 0)).
  { intros address physical.
    assert (Hp := u32_range (osConvertVirtToPhys address)). fold physical in Hp.
    unfold ConvertLinearUserVAToKernelVA. fold physical.
    unfold m_fcramPhysicalAddress in *.
    split; intros H.
    - replace (physical =? 0) with false by (symmetry; apply Z.eqb_neq; lia).
      replace (physical <? 536870912) with false by (symmetry; apply Z.ltb_ge; lia).
      replace (u32 (physical - 536870912)) with (physical - 536870912)
        by (symmetry; apply Z.mod_small; lia).
      replace (physical - 536870912 >=? m_fcramSize vd) with false
        by (symmetry; rewrite Z.geb_leb; apply Z.leb_gt; lia).
      cbn [orb]. unfold u32. rewrite Z.mod_small by lia. lia.
    - destruct (physical =? 0); [reflexivity |].
      destruct (Z.ltb_spec physical 536870912); [reflexivity |].
      replace (u32 (physical - 536870912)) with (physical - 536870912)
        by (symmetry; apply Z.mod_small; lia).
      replace (physical - 536870912 >=? m_fcramSize vd) with true
        by (symmetry; rewrite Z.geb_leb; apply Z.leb_le; lia).
      reflexivity. }
  split; [exact Hall |].
  intros a1 a2 Hnz Heq.
  destruct (Hall a1) as [A1 B1]; destruct (Hall a2) as [A2 B2].
  set (p1 := u32 (osConvertVirtToPhys a1)) in *; set (p2 := u32 (osConvertVirtToPhys a2)) in *.
  unfold m_fcramPhysicalAddress in *.
  destruct (Z_le_gt_dec 536870912 p1), (Z_lt_ge_dec p1 (536870912 + m_fcramSize vd));
    try (rewrite B1 in Hnz by lia; contradiction).
  rewrite A1 in Heq by lia.
  destruct (Z_le_gt_dec 536870912 p2), (Z_lt_ge_dec p2 (536870912 + m_fcramSize vd));
    try (rewrite B2 in Heq by lia; lia).
  rewrite A2 in Heq by lia. lia.
Qed.

(** C5, counterexample: with libctru's translation, the linear heap
    addresses 0x14000000 and 0x30000000 are distinct, both in range, and
    map to the same kernel address 0xE0000000. *)
Lemma ConvertLinearUserVAToKernelVA_aliasing :
  let convert := ConvertLinearUserVAToKernelVA libctru_osConvertVirtToPhys row_2_44_6_old in
  In row_2_44_6_old s_versionTable /\
  0x14000000 <> 0x30000000 /\
  convert 0x14000000 = 0xE0000000 /\ convert 0x30000000 = 0xE0000000.
Proof.
  cbv zeta. split; [apply nth_In; cbn; lia |].
  split; [lia |]. split; vm_compute; reflexivity.
Qed.

(** ** Page bits cleared by the steps *)

Lemma u32_pow2_bits (b x : Z) :
  0 <= b < 32 -> 0 <= x -> Z.testbit (u32 (Z.shiftl 1 b)) x = (x =? b).
Proof.
  intros Hb Hx. rewrite Z.shiftl_1_l. unfold u32.
  rewrite Z.mod_small.
  - rewrite Z.pow2_bits_eqb by lia. apply Z.eqb_sym.
  - split; [apply Z.pow_nonneg; lia | apply Z.pow_lt_mono_r; lia].
Qed.

Module BitProofs.
Import MemChunkHax LegacyProofs.

Lemma Step3_clears s w x : 0 <= x < 32 ->
  fst (Step3_SurroundFree (mkSt s w)) = 0 ->
  Z.testbit (m_overwriteAllocated (sess (snd (Step3_SurroundFree (mkSt s w))))) x =
  Z.testbit (m_overwriteAllocated s) x && negb ((x =? 2) || (x =? 4)).
Proof.
  intros Hx. unfold_legacy. sym; intros H; try discriminate; try (rewrite H in *; discriminate).
  rewrite !testbit_clear, !u32_pow2_bits by lia.
  destruct (x =? 2), (x =? 4); cbn; rewrite ?andb_true_r, ?andb_false_r; reflexivity.
Qed.

Lemma Step5_clears s w x : 0 <= x < 32 ->
  fst (Step5_CorruptCreateThread (mkSt s w)) = 0 ->
  Z.testbit (m_overwriteAllocated (sess (snd (Step5_CorruptCreateThread (mkSt s w))))) x =
  Z.testbit (m_overwriteAllocated s) x && negb (x =? 1).
Proof.
  intros Hx. unfold_legacy. sym; intros H; try discriminate; try (rewrite H in *; discriminate).
  all: try (rewrite !testbit_clear, !u32_pow2_bits by lia; reflexivity).
Qed.
End BitProofs.
(** ** Restoring the process ID *)

(** C7: in both [Step7_GrantServiceAccess] and [Step4_GrantServiceAccess],
    after the PID-patching [svcBackdoor] call, when the re-read succeeds but reports
    a nonzero PID, the step returns MakeError(27, 11, KHAX_MODULE, 1023)
    right after the patch and the re-read: no [svcBackdoor] call that
    restores the original PID is made on this path. *)
Theorem grant_service_access_skips_restore :
  (forall s w pid newPID rest,
     MemChunkHax.m_nextStep s = 7 ->
     w_replies w = 0 :: pid :: 0 :: newPID :: rest -> newPID <> 0 ->
     let st' := snd (MemChunkHax.Step7_GrantServiceAccess (mkSt s w)) in
     fst (MemChunkHax.Step7_GrantServiceAccess (mkSt s w)) = MakeError 27 11 KHAX_MODULE 1023 /\
     w_trace (world st') = w_trace w ++ [EGetProcessId m_currentKProcessHandle;
                                         EBackdoor PatchPID;
                                         EGetProcessId m_currentKProcessHandle]) /\
  (forall s w pid newPID rest,
     MemChunkHax2.m_nextStep s = 4 ->
     w_replies w = 0 :: pid :: 0 :: newPID :: rest -> newPID <> 0 ->
     let st' := snd (MemChunkHax2.Step4_GrantServiceAccess (mkSt s w)) in
     fst (MemChunkHax2.Step4_GrantServiceAccess (mkSt s w)) = MakeError 27 11 KHAX_MODULE 1023 /\
     w_trace (world st') = w_trace w ++ [EGetProcessId m_currentKProcessHandle;
                                         EBackdoor PatchPID;
                                         EGetProcessId m_currentKProcessHandle]).
Proof.
  split; intros s w pid newPID rest Hn Hr Hp;
    unfold MemChunkHax.Step7_GrantServiceAccess, MemChunkHax2.Step4_GrantServiceAccess,
      svcGetProcessId, backdoor_PatchPID, backdoor_UnpatchPID, call, emit, out, get_sess,
      modify_sess, modify_world, bind, ret;
    cbn; rewrite Hn; cbn; rewrite Hr; cbn;
    replace (newPID =? 0) with false by (symmetry; apply Z.eqb_neq; exact Hp);
    cbn; rewrite <- !app_assoc; auto.
Qed.

(** ** Dispatch in [khaxInit] *)

(** C8: for every row of the version table, [khaxInit] takes the
    [MemChunkHax2] branch exactly when both patch addresses of the row are
    0, and the [MemChunkHax] branch exactly when both are nonzero. *)
Theorem khaxInit_dispatch r : In r s_versionTable ->
  (khaxInit_variant r = Some Vtable <->
     m_threadPatchAddress r = 0 /\ m_syscallPatchAddress r = 0) /\
  (khaxInit_variant r = Some Legacy <->
     m_threadPatchAddress r <> 0 /\ m_syscallPatchAddress r <> 0).
Proof.
  intros Hin. cbn in Hin.
  repeat destruct Hin as [Hin | Hin]; try contradiction; subst r; cbn;
    repeat split; intros; try discriminate; try reflexivity; try lia;
    match goal with H : _ /\ _ |- _ => destruct H; lia end.
Qed.

(** ** The syscall ACL *)

Lemma full_mask n : 0 <= n < 128 ->
  acl_allows s_fullAccessACL n = negb ((n =? 0) || (n =? 0x7E) || (n =? 0x7F)).
Proof.
  intros Hn.
  assert (H : forallb (fun k => Bool.eqb (acl_allows s_fullAccessACL (Z.of_nat k))
                                   (negb ((Z.of_nat k =? 0) || (Z.of_nat k =? 0x7E)
                                          || (Z.of_nat k =? 0x7F))))
                (seq 0 128) = true) by reflexivity.
  rewrite forallb_forall in H.
  specialize (H (Z.to_nat n)). rewrite Z2Nat.id in H by lia.
  apply Bool.eqb_prop, H, in_seq. lia.
Qed.

Lemma acl_allows_app l1 l2 n : 0 <= n -> (Z.to_nat (n / 8) < length l1)%nat ->
  acl_allows (l1 ++ l2) n = acl_allows l1 n.
Proof.
  intros Hn Hl. unfold acl_allows. rewrite app_nth1 by exact Hl. reflexivity.
Qed.

Lemma acl_index n : 0 <= n < 128 -> (Z.to_nat (n / 8) < 16)%nat.
Proof.
  intros Hn. assert (0 <= n / 8 < 16) by (split; [apply Z.div_pos | apply Z.div_lt_upper_bound]; lia).
  lia.
Qed.

(** C9: [Step6e_GrantSVCAccess] and [Step3e_GrantSVCAccess] return 0, save
    the first 16 bytes of the thread's old ACL in [m_oldACL], replace those
    16 bytes with [s_fullAccessACL] and leave the rest alone; the new ACL
    grants syscall n < 0x80 exactly when n is not 0x00, 0x7E or 0x7F. *)
Theorem grant_svc_access :
  (forall st, let st' := snd (MemChunkHax.Step6e_GrantSVCAccess st) in
     fst (MemChunkHax.Step6e_GrantSVCAccess st) = 0 /\
     MemChunkHax.m_oldACL (sess st') = copy_acl (w_threadACL (world st)) /\
     copy_acl (w_threadACL (world st')) = s_fullAccessACL /\
     skipn sizeof_KSVCACL (w_threadACL (world st')) = skipn sizeof_KSVCACL (w_threadACL (world st)) /\
     (forall n, 0 <= n < 128 ->
        acl_allows (w_threadACL (world st')) n = negb ((n =? 0) || (n =? 0x7E) || (n =? 0x7F)))) /\
  (forall st, let st' := snd (MemChunkHax2.Step3e_GrantSVCAccess st) in
     fst (MemChunkHax2.Step3e_GrantSVCAccess st) = 0 /\
     MemChunkHax2.m_oldACL (sess st') = copy_acl (w_threadACL (world st)) /\
     copy_acl (w_threadACL (world st')) = s_fullAccessACL /\
     skipn sizeof_KSVCACL (w_threadACL (world st')) = skipn sizeof_KSVCACL (w_threadACL (world st)) /\
     (forall n, 0 <= n < 128 ->
        acl_allows (w_threadACL (world st')) n = negb ((n =? 0) || (n =? 0x7E) || (n =? 0x7F)))).
Proof.
  split; intros [s w];
    unfold MemChunkHax.Step6e_GrantSVCAccess, MemChunkHax2.Step3e_GrantSVCAccess,
      gets_world, modify_sess, modify_world, bind, ret; cbn [fst snd sess world];
    cbn [MemChunkHax.m_oldACL MemChunkHax.set_oldACL MemChunkHax2.m_oldACL MemChunkHax2.set_oldACL
         w_threadACL with_threadACL];
    (repeat split);
    try (unfold copy_acl; rewrite firstn_app, skipn_app; reflexivity);
    intros n Hn; rewrite acl_allows_app by (try lia; apply acl_index; exact Hn); cbn [copy_acl firstn s_fullAccessACL];
    apply full_mask; exact Hn.
Qed.

(** ** The corruption counter after a successful run *)

(** C1 (amended): a legacy session whose seven steps all return 0 has
    corruption counter 0 at the end; a [MemChunkHax2] session has no
    corruption counter at all. *)
Theorem successful_run_counter :
  (forall vd w,
     fst (run_steps MemChunkHax.steps (mkSt (MemChunkHax.new vd) w)) = 0 ->
     corruption_level (sess (snd (run_steps MemChunkHax.steps (mkSt (MemChunkHax.new vd) w))))
       = Some 0) /\
  (forall s : MemChunkHax2.MemChunkHax2, corruption_level s = None).
Proof.
  split.
  - intros vd w H. unfold corruption_level, MemChunkHax_CorruptionLevel.
    f_equal. apply LegacyProofs.run_steps_corrupted, H.
  - reflexivity.
Qed.

(** C1, counterexample: the four [MemChunkHax2] steps all succeed on a
    2.48.3 New 3DS host, and the session has no counter equal to 0. *)
Lemma vtable_run_has_no_counter :
  fst (run_steps MemChunkHax2.steps (mkSt vtable_session vtable_world_ok)) = 0 /\
  corruption_level (sess (snd (run_steps MemChunkHax2.steps (mkSt vtable_session vtable_world_ok))))
    <> Some 0.
Proof.
  split; [vm_compute; reflexivity |].
  unfold corruption_level, MemChunkHax2_CorruptionLevel. discriminate.
Qed.

(** ** Pages freed by the legacy destructor *)

(** C6 (amended): with corruption counter at most 0, the legacy destructor
    frees exactly the pages whose bit is set in [m_overwriteAllocated] (if
    [m_overwriteMemory] is allocated), then the extra linear block; with a
    positive counter it frees no page and only sleeps.  A successful Step3
    clears bits 2 and 4, a successful Step5 clears bit 1. *)
Theorem destroy_frees_flagged_pages :
  (forall s w fuel, MemChunkHax.m_corrupted s <= 0 ->
     fst (MemChunkHax.destroy fuel (mkSt s w)) = Some tt /\
     w_trace (world (snd (MemChunkHax.destroy fuel (mkSt s w)))) =
       w_trace w ++
       (if MemChunkHax.m_overwriteMemory s =? 0 then []
        else map (fun x => EControlMemory (MemChunkHax.page s x) PAGE_SIZE MEMOP_FREE 0)
                 (filter (fun x => Z.testbit (MemChunkHax.m_overwriteAllocated s) x)
                    [0; 1; 2; 3; 4; 5])) ++
       (if MemChunkHax.m_extraLinear s =? 0 then []
        else [ELinearFree (MemChunkHax.m_extraLinear s)])) /\
  (forall s w fuel, MemChunkHax.m_corrupted s > 0 ->
     fst (MemChunkHax.destroy fuel (mkSt s w)) = None /\
     w_trace (world (snd (MemChunkHax.destroy fuel (mkSt s w)))) =
       w_trace w ++ repeat (ESleepThread 60000000000) fuel) /\
  (forall s w x, 0 <= x < 32 ->
     fst (MemChunkHax.Step3_SurroundFree (mkSt s w)) = 0 ->
     Z.testbit (MemChunkHax.m_overwriteAllocated
                  (sess (snd (MemChunkHax.Step3_SurroundFree (mkSt s w))))) x =
       Z.testbit (MemChunkHax.m_overwriteAllocated s) x && negb ((x =? 2) || (x =? 4))) /\
  (forall s w x, 0 <= x < 32 ->
     fst (MemChunkHax.Step5_CorruptCreateThread (mkSt s w)) = 0 ->
     Z.testbit (MemChunkHax.m_overwriteAllocated
                  (sess (snd (MemChunkHax.Step5_CorruptCreateThread (mkSt s w))))) x =
       Z.testbit (MemChunkHax.m_overwriteAllocated s) x && negb (x =? 1)).
Proof.
  split; [exact destroy_clean |].
  split; [exact destroy_corrupted |].
  split; [exact BitProofs.Step3_clears | exact BitProofs.Step5_clears].
Qed.

(** C6, counterexample: after the run that fails to free the second page
    in Step5, the session is reachable, its counter is 2 and page 0 is still
    flagged allocated, yet the destructor only sleeps and frees nothing. *)
Lemma destroy_skips_flagged_pages :
  reachable legacy_failed_session /\
  MemChunkHax.m_corrupted (sess legacy_failed_session) = 2 /\
  MemChunkHax.m_overwriteMemory (sess legacy_failed_session) <> 0 /\
  Z.testbit (MemChunkHax.m_overwriteAllocated (sess legacy_failed_session)) 0 = true /\
  w_trace (world (snd (MemChunkHax.destroy 3 legacy_failed_session))) =
    w_trace (world legacy_failed_session) ++ repeat (ESleepThread 60000000000) 3.
Proof.
  split; [apply run_steps_reachable; [auto | apply reach_new] |].
  vm_compute. split; [reflexivity | split; [discriminate | split; reflexivity]].
Qed.

(** ** Witnesses *)

(** C1 witness: the amended theorem at the successful 2.44.6 run. *)
Lemma successful_run_counter_witness :
  fst (run_steps MemChunkHax.steps (mkSt (MemChunkHax.new row_2_44_6_old) legacy_world_ok)) = 0 /\
  corruption_level (sess legacy_done_session) = Some 0.
Proof.
  split; [vm_compute; reflexivity |].
  apply (proj1 successful_run_counter). vm_compute. reflexivity.
Defined.

(** C2 witness: a 2.44.6 Old 3DS finds its own row. *)
Lemma GetForCurrentSystem_exact_witness :
  fst (GetForCurrentSystem (mkSt tt (world_with_replies [SV 2 44 6; 0; 0]))) = Some row_2_44_6_old.
Proof.
  assert (H1 : osGetKernelVersion (mkSt tt (world_with_replies [SV 2 44 6; 0; 0])) =
                 (SV 2 44 6, snd (osGetKernelVersion (mkSt tt (world_with_replies [SV 2 44 6; 0; 0]))))) by reflexivity.
  assert (H2 : IsNew3DS (SV 2 44 6) (snd (osGetKernelVersion (mkSt tt (world_with_replies [SV 2 44 6; 0; 0])))) =
           ((0, false), snd (IsNew3DS (SV 2 44 6) (snd (osGetKernelVersion (mkSt tt (world_with_replies [SV 2 44 6; 0; 0]))))))) by reflexivity.
  destruct (GetForCurrentSystem_exact _ _ _ _ _ H1 H2) as [H _].
  apply H.
  - apply (@nth_In _ 7 s_versionTable no_row). cbn. lia.
  - reflexivity.
  - reflexivity.
Defined.

(** C3 witness: Step2 called on a fresh session. *)
Lemma steps_out_of_order_witness :
  MemChunkHax.Step2_AllocateMemory (mkSt (MemChunkHax.new row_2_44_6_old) legacy_world_ok) =
    (MakeError 28 5 KHAX_MODULE 1016, mkSt (MemChunkHax.new row_2_44_6_old) legacy_world_ok).
Proof.
  apply (proj1 steps_out_of_order 2).
  - cbn [MemChunkHax.steps In]. right. left. reflexivity.
  - cbn. lia.
Defined.

(** C4 witness: the session left by the failing run. *)
Lemma destroy_corrupted_never_returns_witness :
  fst (MemChunkHax.destroy 2 legacy_failed_session) = None /\
  w_trace (world (snd (MemChunkHax.destroy 2 legacy_failed_session))) =
    w_trace (world legacy_failed_session) ++ repeat (ESleepThread 60000000000) 2.
Proof.
  apply destroy_corrupted_never_returns.
  - apply run_steps_reachable; [auto | apply reach_new].
  - vm_compute. discriminate.
Defined.

(** C5 witness: the in-range case at 0x14000000. *)
Lemma ConvertLinearUserVAToKernelVA_spec_witness :
  ConvertLinearUserVAToKernelVA libctru_osConvertVirtToPhys row_2_44_6_old 0x14000000 =
    u32 (libctru_osConvertVirtToPhys 0x14000000) +
    (m_fcramVirtualAddress row_2_44_6_old - m_fcramPhysicalAddress).
Proof.
  pose proof (proj1 (ConvertLinearUserVAToKernelVA_spec libctru_osConvertVirtToPhys row_2_44_6_old
                       (@nth_In _ 7 s_versionTable no_row ltac:(cbn; lia))) 0x14000000) as H.
  cbv zeta in H. apply (proj1 H).
  split; [apply Z.leb_le | apply Z.ltb_lt]; vm_compute; reflexivity.
Defined.

(** C6 witness: destroying the session of the successful run. *)
Lemma destroy_frees_flagged_pages_witness :
  fst (MemChunkHax.destroy 1 (mkSt (sess legacy_done_session) (world legacy_done_session))) = Some tt /\
  w_trace (world (snd (MemChunkHax.destroy 1 (mkSt (sess legacy_done_session) (world legacy_done_session))))) =
    w_trace (world legacy_done_session) ++
    (if MemChunkHax.m_overwriteMemory (sess legacy_done_session) =? 0 then []
     else map (fun x => EControlMemory (MemChunkHax.page (sess legacy_done_session) x)
                          PAGE_SIZE MEMOP_FREE 0)
              (filter (fun x => Z.testbit
                                  (MemChunkHax.m_overwriteAllocated (sess legacy_done_session)) x)
                 [0; 1; 2; 3; 4; 5])) ++
    (if MemChunkHax.m_extraLinear (sess legacy_done_session) =? 0 then []
     else [ELinearFree (MemChunkHax.m_extraLinear (sess legacy_done_session))]).
Proof.
  apply (proj1 destroy_frees_flagged_pages).
  apply Z.leb_le. vm_compute. reflexivity.
Defined.

(** C7 witness: a host answering PID 5 to the re-read. *)
Lemma grant_service_access_skips_restore_witness :
  let s := MemChunkHax.set_nextStep 7 (MemChunkHax.new row_2_44_6_old) in
  let w := world_with_replies [0; 5; 0; 5] in
  let st' := snd (MemChunkHax.Step7_GrantServiceAccess (mkSt s w)) in
  fst (MemChunkHax.Step7_GrantServiceAccess (mkSt s w)) = MakeError 27 11 KHAX_MODULE 1023 /\
  w_trace (world st') = w_trace w ++ [EGetProcessId m_currentKProcessHandle;
                                      EBackdoor PatchPID;
                                      EGetProcessId m_currentKProcessHandle].
Proof.
  cbv zeta.
  apply (proj1 grant_service_access_skips_restore _ _ 5 5 []);
    [reflexivity | reflexivity | discriminate].
Defined.

(** C8 witness: the 2.48.3 New 3DS row. *)
Lemma khaxInit_dispatch_witness :
  (khaxInit_variant row_2_48_3_new = Some Vtable <->
     m_threadPatchAddress row_2_48_3_new = 0 /\ m_syscallPatchAddress row_2_48_3_new = 0) /\
  (khaxInit_variant row_2_48_3_new = Some Legacy <->
     m_threadPatchAddress row_2_48_3_new <> 0 /\ m_syscallPatchAddress row_2_48_3_new <> 0).
Proof.
  apply khaxInit_dispatch. apply nth_In. cbn. lia.
Defined.

(** C9 witness: syscall 0x7E stays forbidden. *)
Lemma grant_svc_access_witness :
  acl_allows (w_threadACL (world (snd (MemChunkHax.Step6e_GrantSVCAccess legacy_done_session)))) 0x7E
    = false.
Proof.
  pose proof (proj1 grant_svc_access legacy_done_session) as H.
  cbv zeta in H. destruct H as [_ [_ [_ [_ H]]]].
  rewrite H by lia. reflexivity.
Defined.

(** C10 witness: kernel 2.40.0 skips the hardware query. *)
Lemma IsNew3DS_threshold_witness :
  IsNew3DS (SV 2 40 0) (mkSt tt (world_with_replies [])) =
    ((0, false), mkSt tt (world_with_replies [])).
Proof.
  destruct (IsNew3DS_threshold (SV 2 40 0) (mkSt tt (world_with_replies []))
              (mkSt tt (world_with_replies [])) (SV 2 40 0)) as [H _].
  - reflexivity.
  - apply H. apply Z.ltb_lt. vm_compute. reflexivity.
Defined.

(** * Further properties of the code *)

(** ** Result codes *)

Lemma u32_s32 z : u32 (s32 z) = u32 z.
Proof.
  unfold s32. destruct (u32 z <? 2 ^ 31).
  - apply u32_idem.
  - unfold u32 at 1. rewrite <- Zminus_mod_idemp_r, Z_mod_same_full, Z.sub_0_r. apply u32_idem.
Qed.

(** [MakeError] packs its four fields without overlap: for fields in range,
    the 32-bit pattern of the result decodes back to level (bits 27-31),
    summary (21-26), module (10-17) and description (0-9), and the result
    is a failure ([R_FAILED]) exactly when the level is 16 or more. *)
Theorem MakeError_fields level summary module error :
  0 <= level < 32 -> 0 <= summary < 64 -> 0 <= module < 256 -> 0 <= error < 1024 ->
  let r := u32 (MakeError level summary module error) in
  Z.land (Z.shiftr r 27) 0x1F = level /\
  Z.land (Z.shiftr r 21) 0x3F = summary /\
  Z.land (Z.shiftr r 10) 0xFF = module /\
  Z.land r 0x3FF = error /\
  R_FAILED (MakeError level summary module error) = (16 <=? level).
Proof.
  intros Hl Hs Hm He r.
  assert (Hr : r = level * 2 ^ 27 + summary * 2 ^ 21 + module * 2 ^ 10 + error).
  { unfold r, MakeError. rewrite u32_s32. rewrite !Z.shiftl_mul_pow2 by lia.
    unfold u32. apply Z.mod_small. lia. }
  change 0x1F with (Z.ones 5). change 0x3F with (Z.ones 6).
  change 0xFF with (Z.ones 8). change 0x3FF with (Z.ones 10).
  rewrite !Z.land_ones, !Z.shiftr_div_pow2 by lia. rewrite Hr.
  replace (2 ^ 27) with 134217728 by reflexivity. replace (2 ^ 21) with 2097152 by reflexivity.
  replace (2 ^ 10) with 1024 by reflexivity. replace (2 ^ 5) with 32 by reflexivity.
  replace (2 ^ 6) with 64 by reflexivity. replace (2 ^ 8) with 256 by reflexivity.
  split; [| split; [| split; [| split]]];
    try (clear Hr; clearbody r; Z.div_mod_to_equations; lia).
  unfold R_FAILED, MakeError, s32. cbv zeta.
  rewrite !Z.shiftl_mul_pow2 by lia.
  replace (u32 (level * 2 ^ 27 + summary * 2 ^ 21 + module * 2 ^ 10 + error))
    with (level * 2 ^ 27 + summary * 2 ^ 21 + module * 2 ^ 10 + error)
    by (symmetry; apply Z.mod_small; lia).
  destruct (Z.leb_spec 16 level).
  - replace (level * 2 ^ 27 + summary * 2 ^ 21 + module * 2 ^ 10 + error <? 2 ^ 31)
      with false by (symmetry; apply Z.ltb_ge; lia).
    apply Z.ltb_lt. lia.
  - replace (level * 2 ^ 27 + summary * 2 ^ 21 + module * 2 ^ 10 + error <? 2 ^ 31)
      with true by (symmetry; apply Z.ltb_lt; lia).
    apply Z.ltb_ge. lia.
Qed.

(** ** Version numbers and the choice of exploit *)

Lemma testbit_small y k n : 0 <= k -> 0 <= y < 2 ^ k -> k <= n -> Z.testbit y n = false.
Proof.
  intros Hk Hy Hn. rewrite <- (Z.mod_small y (2 ^ k)) by exact Hy.
  apply Z.mod_pow2_bits_high. lia.
Qed.

Lemma lor_disjoint_add a b : Z.land a b = 0 -> Z.lor a b = a + b.
Proof.
  intros H. rewrite (Z.add_nocarry_lxor a b H). symmetry. apply Z.lxor_lor, H.
Qed.

Lemma SYSTEM_VERSION_value major minor revision :
  0 <= major -> 0 <= minor < 256 -> 0 <= revision < 256 ->
  SYSTEM_VERSION major minor revision = major * 2 ^ 24 + minor * 2 ^ 16 + revision * 2 ^ 8.
Proof.
  intros Ha Hb Hc. unfold SYSTEM_VERSION.
  rewrite (lor_disjoint_add (Z.shiftl major 24) (Z.shiftl minor 16)).
  2: { apply Z.bits_inj'. intros n Hn. rewrite Z.land_spec, Z.bits_0.
       destruct (Z.lt_ge_cases n 24).
       - rewrite Z.shiftl_spec_low by lia. reflexivity.
       - rewrite (Z.shiftl_spec minor) by lia.
         rewrite (testbit_small minor 8) by lia. apply andb_false_r. }
  replace (Z.shiftl major 24 + Z.shiftl minor 16) with (Z.shiftl (major * 2 ^ 8 + minor) 16)
    by (rewrite !Z.shiftl_mul_pow2 by lia; change (2 ^ 24) with (2 ^ 8 * 2 ^ 16); ring).
  rewrite lor_disjoint_add.
  2: { apply Z.bits_inj'. intros n Hn. rewrite Z.land_spec, Z.bits_0.
       destruct (Z.lt_ge_cases n 16).
       - rewrite Z.shiftl_spec_low by lia. reflexivity.
       - rewrite (Z.shiftl_spec revision) by lia.
         rewrite (testbit_small revision 8 (n - 8)) by lia. apply andb_false_r. }
  rewrite !Z.shiftl_mul_pow2 by lia. change (2 ^ 24) with (2 ^ 8 * 2 ^ 16). ring.
Qed.

(** For a kernel version [SYSTEM_VERSION(major, minor, revision)] with
    components below 256, [khaxInit] picks the legacy heap exploit exactly up
    to 2.46.0, the vtable exploit exactly from 2.46.1 to 2.50.9, and neither
    above 2.50.9: the packed version orders like (major, minor, revision). *)

Theorem khaxInit_variant_by_version vd major minor revision :
  0 <= major < 256 -> 0 <= minor < 256 -> 0 <= revision < 256 ->
  m_kernelVersion vd = SYSTEM_VERSION major minor revision ->
  (khaxInit_variant vd = Some Legacy <->
     major < 2 \/ (major = 2 /\ (minor < 46 \/ (minor = 46 /\ revision = 0)))) /\
  (khaxInit_variant vd = Some Vtable <->
     major = 2 /\ ((minor = 46 /\ 0 < revision) \/ 46 < minor < 50 \/
                   (minor = 50 /\ revision <= 9))) /\
  (khaxInit_variant vd = None <->
     2 < major \/ (major = 2 /\ (50 < minor \/ (minor = 50 /\ 9 < revision)))).
Proof.
  intros Ha Hb Hc Hk. unfold khaxInit_variant. rewrite Hk.
  rewrite !SYSTEM_VERSION_value by lia.
  replace (2 ^ 24) with 16777216 by reflexivity. replace (2 ^ 16) with 65536 by reflexivity.
  replace (2 ^ 8) with 256 by reflexivity.
  destruct (Z.leb_spec (major * 16777216 + minor * 65536 + revision * 256)
                       (2 * 16777216 + 46 * 65536 + 0 * 256));
    [| destruct (Z.leb_spec (major * 16777216 + minor * 65536 + revision * 256)
                            (2 * 16777216 + 50 * 65536 + 9 * 256))];
    (split; [| split]); split; intros Hx; try discriminate; try reflexivity; lia.
Qed.

(** ** Address conversion *)

(** For every row of the version table, a non-null result of
    [ConvertLinearUserVAToKernelVA] lies inside the row's FCRAM window
    [[m_fcramVirtualAddress, m_fcramVirtualAddress + m_fcramSize)], whatever
    [osConvertVirtToPhys] answers. *)

Theorem ConvertLinearUserVAToKernelVA_range osConvertVirtToPhys vd address :
  In vd s_versionTable ->
  ConvertLinearUserVAToKernelVA osConvertVirtToPhys vd address <> 0 ->
  m_fcramVirtualAddress vd <= ConvertLinearUserVAToKernelVA osConvertVirtToPhys vd address <
    m_fcramVirtualAddress vd + m_fcramSize vd.
Proof.
  intros Hin Hnz. destruct (table_fcram vd Hin) as [Hv [Hs Hvs]].
  revert Hnz. unfold ConvertLinearUserVAToKernelVA.
  set (physical := u32 (osConvertVirtToPhys address)).
  assert (Hp := u32_range (osConvertVirtToPhys address)). fold physical in Hp.
  unfold m_fcramPhysicalAddress.
  destruct (physical =? 0); [congruence |].
  destruct (Z.ltb_spec physical 536870912); cbn [orb]; [congruence |].
  replace (u32 (physical - 536870912)) with (physical - 536870912)
    by (symmetry; apply Z.mod_small; lia).
  destruct (Z.geb_spec (physical - 536870912) (m_fcramSize vd)); [congruence |].
  intros _. unfold u32. rewrite Z.mod_small by lia. lia.
Qed.

(** ** The corruption counter *)

(** In every reachable legacy session the corruption counter is never
    negative, and a session whose next step is Step6 has a counter of at
    least 3 (the two heap corruptions and the kernel code patch of Step5). *)
Theorem corruption_counter_never_negative st :
  reachable st ->
  0 <= MemChunkHax.m_corrupted (sess st) /\
  (MemChunkHax.m_nextStep (sess st) = 6 -> 3 <= MemChunkHax.m_corrupted (sess st)).
Proof. apply reachable_inv. Qed.

(** ** Failing closed *)

Lemma GetForCurrentSystem_apt_failure {T} (x : T) w kernelVersion error rest :
  w_replies w = kernelVersion :: error :: rest ->
  SYSTEM_VERSION 2 44 6 <= kernelVersion -> error <> 0 ->
  fst (GetForCurrentSystem (mkSt x w)) = None /\
  w_trace (world (snd (GetForCurrentSystem (mkSt x w)))) =
    w_trace w ++ [EGetKernelVersion; EAPT_CheckNew3DS].
Proof.
  intros Hr Hk He.
  assert (Hpos : 0 < SYSTEM_VERSION 2 44 6) by reflexivity.
  destruct w as [replies trace mem v2p acl pid patched]. cbn in Hr. subst replies.
  unfold GetForCurrentSystem, IsNew3DS, IsNew3DS_kernelVersion, APT_CheckNew3DS,
    osGetKernelVersion.
  unfold_monad. cbn -[SYSTEM_VERSION search_table].
  replace (kernelVersion =? 0) with false by (symmetry; apply Z.eqb_neq; lia).
  replace (kernelVersion >=? SYSTEM_VERSION 2 44 6) with true
    by (symmetry; rewrite Z.geb_leb; apply Z.leb_le; exact Hk).
  assert (E : (error =? 0) = false) by (apply Z.eqb_neq; exact He).
  cbn -[search_table]. rewrite E. cbn -[search_table]. rewrite ?E. cbn -[search_table]. rewrite <- app_assoc. split; reflexivity.
Qed.

(** When the kernel is at least 2.44.6 and [APT_CheckNew3DS] fails,
    [khaxInit] returns MakeError(27, 6, KHAX_MODULE, 39) after exactly two
    host calls (the version read and the failed check): no session is
    built and no step runs. *)
Theorem khaxInit_apt_failure fuel arbiter heapEnd vtable w kernelVersion error rest :
  w_replies w = kernelVersion :: error :: rest ->
  SYSTEM_VERSION 2 44 6 <= kernelVersion -> error <> 0 ->
  fst (khaxInit fuel arbiter heapEnd vtable w) = Some (MakeError 27 6 KHAX_MODULE 39) /\
  w_trace (snd (khaxInit fuel arbiter heapEnd vtable w)) =
    w_trace w ++ [EGetKernelVersion; EAPT_CheckNew3DS].
Proof.
  intros Hr Hk He.
  destruct (GetForCurrentSystem_apt_failure tt w _ _ _ Hr Hk He) as [H1 H2].
  unfold khaxInit. destruct (GetForCurrentSystem (mkSt tt w)) as [vd st].
  cbn [fst snd] in H1, H2. subst vd. split; [reflexivity | exact H2].
Qed.

(** ** Step progression *)

(** Boolean tests of a symbolic run, as propositions. *)
Ltac bools :=
  unfold R_FAILED in *;
  repeat match goal with
  | H : negb _ = true |- _ => apply Bool.negb_true_iff in H
  | H : negb _ = false |- _ => apply Bool.negb_false_iff in H
  | H : (_ =? _) = true |- _ => apply Z.eqb_eq in H
  | H : (_ =? _) = false |- _ => apply Z.eqb_neq in H
  | H : (_ <? _) = true |- _ => apply Z.ltb_lt in H
  | H : (_ <? _) = false |- _ => apply Z.ltb_ge in H
  end.

Ltac progress_close :=
  bools;
  first [ left; split; [reflexivity | split; lia]
        | right; split;
          [ first [ assumption | lia | (intros Hr; vm_compute in Hr; discriminate) ]
          | reflexivity ] ].

Module LegacyProgress.
Import MemChunkHax LegacyProofs.

(** Every legacy step method either succeeds (returns 0), having been
    called with [m_nextStep] equal to its own number, and advances
    [m_nextStep] by one (Step7, the last, leaves it at 7), or fails (returns
    nonzero) and leaves [m_nextStep] unchanged. *)
Theorem legacy_step_progress n step s w :
  In (n, step) steps ->
  let r := fst (step (mkSt s w)) in
  let s' := sess (snd (step (mkSt s w))) in
  (r = 0 /\ m_nextStep s = n /\ m_nextStep s' = (if n =? 7 then n else n + 1)) \/
  (r <> 0 /\ m_nextStep s' = m_nextStep s).
Proof.
  intros Hin. cbn in Hin.
  repeat destruct Hin as [Hin | Hin]; try contradiction; injection Hin as <- <-;
    unfold_legacy; sym; progress_close.
Qed.
End LegacyProgress.

Module VtableProgress.
Import MemChunkHax2.

Ltac unfold_vtable :=
  unfold Step1_Initialize, Step2_IsolatePage, Step3_OverwriteVtable, Step4_GrantServiceAccess,
    svcCreateEventKAddr, Step3e_GrantSVCAccess, Step3d_SVCEntryPoint, Step3c_SVCEntryPointThunk,
    svcCloseHandle_event, next_step, svcControlMemory, svcGetProcessId, backdoor_PatchPID,
    backdoor_UnpatchPID in *;
  unfold_monad.

(** Every [MemChunkHax2] step method either succeeds, having been called
    with [m_nextStep] equal to its own number, and advances [m_nextStep] by
    one (Step4, the last, leaves it at 4), or fails and leaves [m_nextStep]
    unchanged. *)
Theorem vtable_step_progress n step s w :
  In (n, step) steps ->
  let r := fst (step (mkSt s w)) in
  let s' := sess (snd (step (mkSt s w))) in
  (r = 0 /\ m_nextStep s = n /\ m_nextStep s' = (if n =? 4 then n else n + 1)) \/
  (r <> 0 /\ m_nextStep s' = m_nextStep s).
Proof.
  intros Hin. cbn in Hin.
  repeat destruct Hin as [Hin | Hin]; try contradiction; injection Hin as <- <-;
    unfold_vtable; sym; progress_close.
Qed.

Lemma Step3_kernel s w :
  m_kernelResult s <> 0 ->
  let (r, st') := Step3_OverwriteVtable (mkSt s w) in
  r = 0 ->
  copy_acl (w_threadACL (world st')) = s_fullAccessACL /\
  skipn sizeof_KSVCACL (w_threadACL (world st')) = skipn sizeof_KSVCACL (w_threadACL w) /\
  m_oldACL (sess st') = copy_acl (w_threadACL w) /\
  m_kObjHandle (sess st') = 0 /\ m_kernelResult (sess st') = 0.
Proof.
  intros Hk. unfold_vtable; sym; intros Hr; bools; try lia;
    try (vm_compute in Hr; discriminate); repeat split; reflexivity.
Qed.

(** [Step3_OverwriteVtable] reports success only after its kernel-mode
    code has run: called with a nonzero [m_kernelResult] (the constructor
    sets -1), a result of 0 means the thread's ACL now starts with the full
    access ACL (the rest of the thread area unchanged), the old ACL was
    saved in [m_oldACL], the event handle is closed ([m_kObjHandle] = 0)
    and [m_kernelResult] is 0. *)
Theorem Step3_success_ran_kernel_code s w :
  m_kernelResult s <> 0 ->
  fst (Step3_OverwriteVtable (mkSt s w)) = 0 ->
  let st' := snd (Step3_OverwriteVtable (mkSt s w)) in
  copy_acl (w_threadACL (world st')) = s_fullAccessACL /\
  skipn sizeof_KSVCACL (w_threadACL (world st')) = skipn sizeof_KSVCACL (w_threadACL w) /\
  m_oldACL (sess st') = copy_acl (w_threadACL w) /\
  m_kObjHandle (sess st') = 0 /\ m_kernelResult (sess st') = 0.
Proof.
  intros Hk. pose proof (Step3_kernel s w Hk) as H.
  destruct (Step3_OverwriteVtable (mkSt s w)) as [r st']. exact H.
Qed.

Ltac ok_tac :=
  unfold_vtable; sym; intros Hr; bools; try lia;
  try (vm_compute in Hr; discriminate); repeat split; try reflexivity; try lia.

Lemma vStep1_ok s w :
  let (r, st') := Step1_Initialize (mkSt s w) in r = 0 ->
  m_kernelResult (sess st') = m_kernelResult s.
Proof. ok_tac. Qed.

Lemma vStep2_ok s w :
  let (r, st') := Step2_IsolatePage (mkSt s w) in r = 0 ->
  m_kernelResult (sess st') = m_kernelResult s.
Proof. ok_tac. Qed.

Lemma vStep4_ok s w :
  let (r, st') := Step4_GrantServiceAccess (mkSt s w) in r = 0 ->
  w_threadACL (world st') = w_threadACL w /\ m_kObjHandle (sess st') = m_kObjHandle s /\
  w_processID (world st') = m_originalPID (sess st') /\ m_nextStep (sess st') = 4.
Proof. ok_tac. Qed.

Ltac cbn_keep2_goal :=
  cbn -[Step1_Initialize Step2_IsolatePage Step3_OverwriteVtable Step4_GrantServiceAccess].
Ltac cbn_keep2 H :=
  cbn -[Step1_Initialize Step2_IsolatePage Step3_OverwriteVtable Step4_GrantServiceAccess] in H |- *.

(** When all four [MemChunkHax2] steps of a fresh session succeed, the
    thread's ACL starts with the full access ACL, the process ID is back to
    the original PID read in Step4, the event handle is closed and
    [m_nextStep] is 4. *)
Theorem vtable_run_success vd arbiter heapEnd vtable w :
  fst (run_steps steps (mkSt (new vd arbiter heapEnd vtable) w)) = 0 ->
  let st := snd (run_steps steps (mkSt (new vd arbiter heapEnd vtable) w)) in
  copy_acl (w_threadACL (world st)) = s_fullAccessACL /\
  w_processID (world st) = m_originalPID (sess st) /\
  m_kObjHandle (sess st) = 0 /\
  m_nextStep (sess st) = 4.
Proof.
  unfold run_steps, steps, bind, ret.
  pose proof (vStep1_ok (new vd arbiter heapEnd vtable) w) as F1.
  destruct (Step1_Initialize (mkSt (new vd arbiter heapEnd vtable) w)) as [r1 [s1 w1]];
    cbn_keep2 F1.
  destruct (r1 =? 0) eqn:R1; cbn_keep2_goal; [|intros H; rewrite H in R1; discriminate].
  apply Z.eqb_eq in R1; specialize (F1 R1).
  pose proof (vStep2_ok s1 w1) as F2.
  destruct (Step2_IsolatePage (mkSt s1 w1)) as [r2 [s2 w2]]; cbn_keep2 F2.
  destruct (r2 =? 0) eqn:R2; cbn_keep2_goal; [|intros H; rewrite H in R2; discriminate].
  apply Z.eqb_eq in R2; specialize (F2 R2).
  assert (K : m_kernelResult s2 <> 0) by (rewrite F2, F1; discriminate).
  pose proof (Step3_kernel s2 w2 K) as F3.
  destruct (Step3_OverwriteVtable (mkSt s2 w2)) as [r3 [s3 w3]]; cbn_keep2 F3.
  destruct (r3 =? 0) eqn:R3; cbn_keep2_goal; [|intros H; rewrite H in R3; discriminate].
  apply Z.eqb_eq in R3; destruct (F3 R3) as [A3 [_ [_ [H3 _]]]].
  pose proof (vStep4_ok s3 w3) as F4.
  destruct (Step4_GrantServiceAccess (mkSt s3 w3)) as [r4 [s4 w4]]; cbn_keep2 F4.
  destruct (r4 =? 0) eqn:R4; cbn_keep2_goal; [|intros H; rewrite H in R4; discriminate].
  apply Z.eqb_eq in R4; destruct (F4 R4) as [A4 [H4 [P4 N4]]].
  intros _. cbn. rewrite A4, H4. repeat split; assumption.
Qed.
End VtableProgress.

(** ** Granting service access *)

Module GrantProofs.

Lemma legacy_grant s w :
  let (r, st') := MemChunkHax.Step7_GrantServiceAccess (mkSt s w) in
  r = 0 ->
  w_processID (world st') = MemChunkHax.m_originalPID (sess st') /\
  w_threadACL (world st') = w_threadACL w /\
  w_trace (world st') =
    w_trace w ++ [EGetProcessId m_currentKProcessHandle; EBackdoor PatchPID;
                  EGetProcessId m_currentKProcessHandle; ESrvExit; ESrvInit;
                  EBackdoor UnpatchPID; EGetProcessId m_currentKProcessHandle].
Proof.
  LegacyProofs.unfold_legacy; sym; intros Hr; bools; try lia;
    try (vm_compute in Hr; discriminate); repeat split; try reflexivity.
  rewrite <- !app_assoc. reflexivity.
Qed.

Lemma vtable_grant s w :
  let (r, st') := MemChunkHax2.Step4_GrantServiceAccess (mkSt s w) in
  r = 0 ->
  w_processID (world st') = MemChunkHax2.m_originalPID (sess st') /\
  w_threadACL (world st') = w_threadACL w /\
  w_trace (world st') =
    w_trace w ++ [EGetProcessId m_currentKProcessHandle; EBackdoor PatchPID;
                  EGetProcessId m_currentKProcessHandle; ESrvExit; ESrvInit;
                  EBackdoor UnpatchPID; EGetProcessId m_currentKProcessHandle].
Proof.
  VtableProgress.unfold_vtable; sym; intros Hr; bools; try lia;
    try (vm_compute in Hr; discriminate); repeat split; try reflexivity.
  rewrite <- !app_assoc. reflexivity.
Qed.

End GrantProofs.

(** A successful [Step7_GrantServiceAccess] (legacy) or
    [Step4_GrantServiceAccess] ([MemChunkHax2]) makes exactly the calls
    GetProcessId, Backdoor(PatchPID), GetProcessId, srvExit, srvInit,
    Backdoor(UnpatchPID), GetProcessId, leaves the process ID equal to the
    original PID saved in the session, and does not touch the thread's
    ACL. *)
Theorem grant_service_access_success :
  (forall s w,
     fst (MemChunkHax.Step7_GrantServiceAccess (mkSt s w)) = 0 ->
     let st' := snd (MemChunkHax.Step7_GrantServiceAccess (mkSt s w)) in
     w_processID (world st') = MemChunkHax.m_originalPID (sess st') /\
     w_threadACL (world st') = w_threadACL w /\
     w_trace (world st') =
       w_trace w ++ [EGetProcessId m_currentKProcessHandle; EBackdoor PatchPID;
                     EGetProcessId m_currentKProcessHandle; ESrvExit; ESrvInit;
                     EBackdoor UnpatchPID; EGetProcessId m_currentKProcessHandle]) /\
  (forall s w,
     fst (MemChunkHax2.Step4_GrantServiceAccess (mkSt s w)) = 0 ->
     let st' := snd (MemChunkHax2.Step4_GrantServiceAccess (mkSt s w)) in
     w_processID (world st') = MemChunkHax2.m_originalPID (sess st') /\
     w_threadACL (world st') = w_threadACL w /\
     w_trace (world st') =
       w_trace w ++ [EGetProcessId m_currentKProcessHandle; EBackdoor PatchPID;
                     EGetProcessId m_currentKProcessHandle; ESrvExit; ESrvInit;
                     EBackdoor UnpatchPID; EGetProcessId m_currentKProcessHandle]).
Proof.
  split; intros s w.
  - pose proof (GrantProofs.legacy_grant s w) as H.
    destruct (MemChunkHax.Step7_GrantServiceAccess (mkSt s w)) as [r st']. exact H.
  - pose proof (GrantProofs.vtable_grant s w) as H.
    destruct (MemChunkHax2.Step4_GrantServiceAccess (mkSt s w)) as [r st']. exact H.
Qed.

(** ** The legacy allocation and layout checks *)

Module LegacyChecks.
Import MemChunkHax LegacyProofs.

(** Once the linear allocation of Step2 succeeds, the session records its
    address in [m_overwriteMemory] and marks all six pages allocated
    ([m_overwriteAllocated] = (1 << 6) - 1) even if the alignment check or
    the extra allocation then fails, so the destructor frees them; when
    Step2 succeeds the block is page aligned and the extra block is
    non-null. *)
Theorem Step2_records_allocation s w :
  m_nextStep s = 2 -> hd 0 (w_replies w) = 0 ->
  let st' := snd (Step2_AllocateMemory (mkSt s w)) in
  m_overwriteMemory (sess st') = hd 0 (tl (w_replies w)) /\
  m_overwriteAllocated (sess st') = Z.shiftl 1 6 - 1 /\
  (fst (Step2_AllocateMemory (mkSt s w)) = 0 ->
   Z.land (m_overwriteMemory (sess st')) 0xFFF = 0 /\ m_extraLinear (sess st') <> 0).
Proof.
  intros Hn H0. unfold_legacy; sym; bools; try lia;
    (split; [reflexivity | split; [reflexivity | intros Hr]]);
    try (vm_compute in Hr; discriminate); try lia; split; assumption.
Qed.

Lemma load32_copy_out m d src n a : a + 4 <= d \/ d + n <= a ->
  load32_mem (copy_mem m d src n) a = load32_mem m a.
Proof.
  intros H. unfold load32_mem, copy_mem.
  repeat match goal with
         | |- context [(?a <=? ?x) && (?x <? ?b)] =>
             replace ((a <=? x) && (x <? b)) with false
               by (symmetry; apply andb_false_iff;
                   destruct H; [left; apply Z.leb_gt | right; apply Z.ltb_ge]; lia)
         end.
  reflexivity.
Qed.

(** A successful Step4 has checked the kernel's free-list links of the two
    freed pages as they were in memory when it started: the [m_next] word
    of the third page is the kernel address of the fifth page, and the
    [m_prev] word of the fifth page is the kernel address of the third
    page, provided the 64-byte extra block used as the copy buffer does
    not overlap the fifth page's [m_prev] word. *)
Theorem Step4_success_checks_links s w :
  page s 4 + HeapFreeBlock_m_prev + 4 <= m_extraLinear s \/
  m_extraLinear s + sizeof_ExtraLinearMemory <= page s 4 + HeapFreeBlock_m_prev ->
  fst (Step4_VerifyExpectedLayout (mkSt s w)) = 0 ->
  load32_mem (w_mem w) (page s 2 + HeapFreeBlock_m_next) =
    ConvertLinearUserVAToKernelVA (w_virtToPhys w) (m_versionData s) (page s 4) /\
  load32_mem (w_mem w) (page s 4 + HeapFreeBlock_m_prev) =
    ConvertLinearUserVAToKernelVA (w_virtToPhys w) (m_versionData s) (page s 2).
Proof.
  intros Hd. unfold_legacy; sym; intros Hr; bools; try lia;
    try (vm_compute in Hr; discriminate).
  rewrite load32_copy_in in E2, E5 by (unfold HeapFreeBlock_m_next, HeapFreeBlock_m_prev,
                                        sizeof_ExtraLinearMemory; lia).
  rewrite load32_copy_out in E5 by (unfold sizeof_ExtraLinearMemory in *; lia).
  split; assumption.
Qed.
End LegacyChecks.

(** ** Complete legacy runs *)
Module LegacyRun.
Import MemChunkHax LegacyProofs.

Ltac ok_tac :=
  unfold_legacy; sym; intros Hr; bools; try lia;
  try (vm_compute in Hr; discriminate); repeat split; try reflexivity; try lia.

Lemma Step1_ok s w :
  let (r, st') := Step1_Initialize (mkSt s w) in r = 0 ->
  m_overwriteAllocated (sess st') = m_overwriteAllocated s /\
  m_extraLinear (sess st') = m_extraLinear s.
Proof. ok_tac. Qed.

Lemma Step2_ok s w :
  let (r, st') := Step2_AllocateMemory (mkSt s w) in r = 0 ->
  m_overwriteAllocated (sess st') = Z.shiftl 1 6 - 1 /\ m_extraLinear (sess st') <> 0.
Proof. ok_tac. Qed.

Lemma Step3_ok s w :
  let (r, st') := Step3_SurroundFree (mkSt s w) in r = 0 ->
  m_overwriteAllocated (sess st') =
    Z.land (Z.land (m_overwriteAllocated s) (u32_not (Z.shiftl 1 2))) (u32_not (Z.shiftl 1 4)) /\
  m_extraLinear (sess st') = m_extraLinear s.
Proof. ok_tac. Qed.

Lemma Step4_ok s w :
  let (r, st') := Step4_VerifyExpectedLayout (mkSt s w) in r = 0 ->
  m_overwriteAllocated (sess st') = m_overwriteAllocated s /\
  m_extraLinear (sess st') = m_extraLinear s.
Proof. ok_tac. Qed.

Lemma Step5_ok s w :
  let (r, st') := Step5_CorruptCreateThread (mkSt s w) in r = 0 ->
  m_overwriteAllocated (sess st') = Z.land (m_overwriteAllocated s) (u32_not (Z.shiftl 1 1)) /\
  m_extraLinear (sess st') = m_extraLinear s.
Proof. ok_tac. Qed.

Lemma Step6_ok s w :
  w_createThreadPatched w = true ->
  let (r, st') := Step6_ExecuteSVCCode (mkSt s w) in r = 0 ->
  m_overwriteAllocated (sess st') = m_overwriteAllocated s /\
  m_extraLinear (sess st') = m_extraLinear s /\
  w_createThreadPatched (world st') = false /\
  copy_acl (w_threadACL (world st')) = s_fullAccessACL.
Proof. intros Hp. ok_tac; congruence. Qed.

Lemma Step7_ok s w :
  let (r, st') := Step7_GrantServiceAccess (mkSt s w) in r = 0 ->
  m_overwriteAllocated (sess st') = m_overwriteAllocated s /\
  m_extraLinear (sess st') = m_extraLinear s /\
  w_createThreadPatched (world st') = w_createThreadPatched w /\
  w_threadACL (world st') = w_threadACL w /\
  w_processID (world st') = m_originalPID (sess st') /\
  m_nextStep (sess st') = 7.
Proof. ok_tac. Qed.

Lemma run_success_state vd w :
  fst (run_steps steps (mkSt (new vd) w)) = 0 ->
  let st := snd (run_steps steps (mkSt (new vd) w)) in
  w_createThreadPatched (world st) = false /\
  copy_acl (w_threadACL (world st)) = s_fullAccessACL /\
  w_processID (world st) = m_originalPID (sess st) /\
  m_nextStep (sess st) = 7 /\
  m_overwriteAllocated (sess st) = 41 /\
  m_extraLinear (sess st) <> 0.
Proof.
  unfold run_steps, steps, bind, ret.
  pose proof (Step1_ok (new vd) w) as F1.
  destruct (Step1_Initialize (mkSt (new vd) w)) as [r1 [s1 w1]]; cbn_keep F1.
  destruct (r1 =? 0) eqn:R1; cbn_keep_goal; [|intros H; rewrite H in R1; discriminate].
  apply Z.eqb_eq in R1; destruct (F1 R1) as [A1 X1].
  pose proof (Step2_ok s1 w1) as F2.
  destruct (Step2_AllocateMemory (mkSt s1 w1)) as [r2 [s2 w2]]; cbn_keep F2.
  destruct (r2 =? 0) eqn:R2; cbn_keep_goal; [|intros H; rewrite H in R2; discriminate].
  apply Z.eqb_eq in R2; destruct (F2 R2) as [A2 X2].
  pose proof (Step3_ok s2 w2) as F3.
  destruct (Step3_SurroundFree (mkSt s2 w2)) as [r3 [s3 w3]]; cbn_keep F3.
  destruct (r3 =? 0) eqn:R3; cbn_keep_goal; [|intros H; rewrite H in R3; discriminate].
  apply Z.eqb_eq in R3; destruct (F3 R3) as [A3 X3].
  pose proof (Step4_ok s3 w3) as F4.
  destruct (Step4_VerifyExpectedLayout (mkSt s3 w3)) as [r4 [s4 w4]]; cbn_keep F4.
  destruct (r4 =? 0) eqn:R4; cbn_keep_goal; [|intros H; rewrite H in R4; discriminate].
  apply Z.eqb_eq in R4; destruct (F4 R4) as [A4 X4].
  pose proof (Step5_ok s4 w4) as F5. pose proof (Step5_success s4 w4) as P5.
  destruct (Step5_CorruptCreateThread (mkSt s4 w4)) as [r5 [s5 w5]]; cbn_keep F5; cbn_keep P5.
  destruct (r5 =? 0) eqn:R5; cbn_keep_goal; [|intros H; rewrite H in R5; discriminate].
  apply Z.eqb_eq in R5; destruct (F5 R5) as [A5 X5]; destruct (P5 R5) as [_ P5'].
  pose proof (Step6_ok s5 w5 P5') as F6.
  destruct (Step6_ExecuteSVCCode (mkSt s5 w5)) as [r6 [s6 w6]]; cbn_keep F6.
  destruct (r6 =? 0) eqn:R6; cbn_keep_goal; [|intros H; rewrite H in R6; discriminate].
  apply Z.eqb_eq in R6; destruct (F6 R6) as [A6 [X6 [P6 C6]]].
  pose proof (Step7_ok s6 w6) as F7.
  destruct (Step7_GrantServiceAccess (mkSt s6 w6)) as [r7 [s7 w7]]; cbn_keep F7.
  destruct (r7 =? 0) eqn:R7; cbn_keep_goal; [|intros H; rewrite H in R7; discriminate].
  apply Z.eqb_eq in R7; destruct (F7 R7) as [A7 [X7 [P7 [C7 [I7 N7]]]]].
  intros _. cbn_keep_all.
  rewrite P7, C7, A7, A6, A5, A4, A3, A2, X7, X6, X5, X4, X3.
  repeat split; try assumption; reflexivity.
Qed.

(** When all seven legacy steps of a fresh session succeed,
    svcCreateThread is unpatched again, the thread's ACL starts with the
    full access ACL, the process ID is back to the original PID read in
    Step7, [m_nextStep] is 7 and only the first, fourth and sixth overwrite
    pages are still marked allocated ([m_overwriteAllocated] = 41). *)
Theorem legacy_run_success vd w :
  fst (run_steps steps (mkSt (new vd) w)) = 0 ->
  let st := snd (run_steps steps (mkSt (new vd) w)) in
  w_createThreadPatched (world st) = false /\
  copy_acl (w_threadACL (world st)) = s_fullAccessACL /\
  w_processID (world st) = m_originalPID (sess st) /\
  m_nextStep (sess st) = 7 /\
  m_overwriteAllocated (sess st) = 41.
Proof.
  intros H. destruct (run_success_state vd w H) as [P [C [I [N [A _]]]]].
  repeat split; assumption.
Qed.

(** After all seven legacy steps of a fresh session succeed, the legacy
    destructor returns and frees exactly the first, fourth and sixth
    overwrite pages (when the overwrite block is non-null), then the extra
    linear block. *)
Theorem legacy_cleanup_after_success vd w fuel :
  fst (run_steps steps (mkSt (new vd) w)) = 0 ->
  let st := snd (run_steps steps (mkSt (new vd) w)) in
  let s := sess st in
  fst (destroy fuel st) = Some tt /\
  w_trace (world (snd (destroy fuel st))) =
    w_trace (world st) ++
    (if m_overwriteMemory s =? 0 then []
     else [EControlMemory (page s 0) PAGE_SIZE MEMOP_FREE 0;
           EControlMemory (page s 3) PAGE_SIZE MEMOP_FREE 0;
           EControlMemory (page s 5) PAGE_SIZE MEMOP_FREE 0]) ++
    [ELinearFree (m_extraLinear s)].
Proof.
  intros H. cbv zeta.
  destruct (run_success_state vd w H) as [_ [_ [_ [_ [A X]]]]].
  pose proof (run_steps_corrupted vd w H) as C.
  destruct (snd (run_steps steps (mkSt (new vd) w))) as [s w'].
  cbn [sess world] in *.
  destruct (destroy_clean s w' fuel ltac:(lia)) as [D T].
  split; [exact D |]. rewrite T, A.
  replace (m_extraLinear s =? 0) with false by (symmetry; apply Z.eqb_neq; exact X).
  reflexivity.
Qed.
End LegacyRun.

(** ** GPU copies *)

(** [GSPwn] writes memory only inside [[dest, dest + size)]; when the GPU
    copy is accepted the range then holds the bytes of [[src, src + size)],
    and when it is refused [GSPwn] returns the refusal and memory is
    unchanged. *)
Theorem GSPwn_frame {T} dest src size wait (st : St T) :
  let st' := snd (GSPwn dest src size wait st) in
  (forall a, a < dest \/ dest + size <= a -> w_mem (world st') a = w_mem (world st) a) /\
  (hd 0 (w_replies (world st)) = 0 ->
   forall a, dest <= a < dest + size -> w_mem (world st') a = w_mem (world st) (src + (a - dest))) /\
  (hd 0 (w_replies (world st)) <> 0 ->
   fst (GSPwn dest src size wait st) = hd 0 (w_replies (world st)) /\
   w_mem (world st') = w_mem (world st)).
Proof.
  destruct st as [s w].
  unfold GSPwn, NukeDataCache; unfold_monad; sym; bools; repeat split; intros;
    try lia; try reflexivity; unfold copy_mem.
  all: destruct (Z.leb_spec dest a), (Z.ltb_spec a (dest + size)); cbn;
         first [reflexivity | lia].
Qed.

(** ** Witnesses of the further properties *)

(** [MakeError_fields] on the invalid-step error 28/5/254/1016. *)
Lemma MakeError_fields_witness :
  let r := u32 (MakeError 28 5 KHAX_MODULE 1016) in
  Z.land (Z.shiftr r 27) 0x1F = 28 /\
  Z.land (Z.shiftr r 21) 0x3F = 5 /\
  Z.land (Z.shiftr r 10) 0xFF = KHAX_MODULE /\
  Z.land r 0x3FF = 1016 /\
  R_FAILED (MakeError 28 5 KHAX_MODULE 1016) = (16 <=? 28).
Proof. apply MakeError_fields; unfold KHAX_MODULE; lia. Defined.

(** [khaxInit_variant_by_version] on the 2.48.3 New 3DS row. *)
Lemma khaxInit_variant_by_version_witness :
  khaxInit_variant row_2_48_3_new = Some Vtable.
Proof.
  apply (proj2 (proj1 (proj2 (khaxInit_variant_by_version row_2_48_3_new 2 48 3
                                ltac:(lia) ltac:(lia) ltac:(lia) eq_refl)))).
  split; [reflexivity | right; left; lia].
Defined.

(** [ConvertLinearUserVAToKernelVA_range] on the start of the linear heap. *)
Lemma ConvertLinearUserVAToKernelVA_range_witness :
  m_fcramVirtualAddress row_2_44_6_old <=
    ConvertLinearUserVAToKernelVA libctru_osConvertVirtToPhys row_2_44_6_old 0x14000000 <
  m_fcramVirtualAddress row_2_44_6_old + m_fcramSize row_2_44_6_old.
Proof.
  apply ConvertLinearUserVAToKernelVA_range.
  - apply (@nth_In _ 7 s_versionTable no_row). cbn. lia.
  - intros H. vm_compute in H. discriminate H.
Defined.

(** [corruption_counter_never_negative] on the session about to run Step6. *)
Lemma corruption_counter_never_negative_witness :
  3 <= MemChunkHax.m_corrupted (sess legacy_step6_state).
Proof.
  assert (R : reachable legacy_step6_state).
  { apply run_steps_reachable; [| apply reach_new].
    intros n step H. cbn [firstn MemChunkHax.steps In] in H |- *. tauto. }
  apply (proj2 (corruption_counter_never_negative legacy_step6_state R)).
  vm_compute. reflexivity.
Defined.

(** [khaxInit_apt_failure] on kernel 2.46.0 with [APT_CheckNew3DS] failing. *)
Lemma khaxInit_apt_failure_witness :
  fst (khaxInit 1 0 0 0 (world_with_replies [SV 2 46 0; 5; 0])) =
    Some (MakeError 27 6 KHAX_MODULE 39) /\
  w_trace (snd (khaxInit 1 0 0 0 (world_with_replies [SV 2 46 0; 5; 0]))) =
    w_trace (world_with_replies [SV 2 46 0; 5; 0]) ++ [EGetKernelVersion; EAPT_CheckNew3DS].
Proof.
  apply (khaxInit_apt_failure 1 0 0 0 (world_with_replies [SV 2 46 0; 5; 0]) (SV 2 46 0) 5 [0]).
  - reflexivity.
  - intros H. vm_compute in H. discriminate H.
  - discriminate.
Defined.

(** [legacy_step_progress] on Step1 of a fresh session. *)
Lemma legacy_step_progress_witness :
  let r := fst (MemChunkHax.Step1_Initialize (mkSt (MemChunkHax.new row_2_44_6_old) legacy_world_ok)) in
  let s' := sess (snd (MemChunkHax.Step1_Initialize
                         (mkSt (MemChunkHax.new row_2_44_6_old) legacy_world_ok))) in
  (r = 0 /\ MemChunkHax.m_nextStep (MemChunkHax.new row_2_44_6_old) = 1 /\
   MemChunkHax.m_nextStep s' = (if 1 =? 7 then 1 else 1 + 1)) \/
  (r <> 0 /\ MemChunkHax.m_nextStep s' = MemChunkHax.m_nextStep (MemChunkHax.new row_2_44_6_old)).
Proof.
  apply (LegacyProgress.legacy_step_progress 1 MemChunkHax.Step1_Initialize).
  cbn [MemChunkHax.steps In]. left. reflexivity.
Defined.

(** [vtable_step_progress] on Step1 of a fresh session. *)
Lemma vtable_step_progress_witness :
  let r := fst (MemChunkHax2.Step1_Initialize (mkSt vtable_session vtable_world_ok)) in
  let s' := sess (snd (MemChunkHax2.Step1_Initialize (mkSt vtable_session vtable_world_ok))) in
  (r = 0 /\ MemChunkHax2.m_nextStep vtable_session = 1 /\
   MemChunkHax2.m_nextStep s' = (if 1 =? 4 then 1 else 1 + 1)) \/
  (r <> 0 /\ MemChunkHax2.m_nextStep s' = MemChunkHax2.m_nextStep vtable_session).
Proof.
  apply (VtableProgress.vtable_step_progress 1 MemChunkHax2.Step1_Initialize).
  cbn [MemChunkHax2.steps In]. left. reflexivity.
Defined.

(** [Step3_success_ran_kernel_code] on the 2.48.3 run after Step2. *)
Lemma Step3_success_ran_kernel_code_witness :
  copy_acl (w_threadACL (world (snd (MemChunkHax2.Step3_OverwriteVtable
    (mkSt (sess vtable_step3_state) (world vtable_step3_state)))))) = s_fullAccessACL.
Proof.
  apply (VtableProgress.Step3_success_ran_kernel_code (sess vtable_step3_state)
           (world vtable_step3_state)).
  - intros H. vm_compute in H. discriminate H.
  - vm_compute. reflexivity.
Defined.

(** [grant_service_access_success] on both machines, PID 5. *)
Lemma grant_service_access_success_witness :
  w_processID (world (snd (MemChunkHax.Step7_GrantServiceAccess
    (mkSt (MemChunkHax.set_nextStep 7 (MemChunkHax.new row_2_44_6_old))
          (world_with_replies [0; 5; 0; 0; 0; 5]))))) = 5 /\
  w_processID (world (snd (MemChunkHax2.Step4_GrantServiceAccess
    (mkSt (MemChunkHax2.set_nextStep 4 vtable_session)
          (world_with_replies [0; 5; 0; 0; 0; 5]))))) = 5.
Proof.
  split.
  - rewrite (proj1 (proj1 grant_service_access_success
                      (MemChunkHax.set_nextStep 7 (MemChunkHax.new row_2_44_6_old))
                      (world_with_replies [0; 5; 0; 0; 0; 5]) eq_refl)).
    reflexivity.
  - rewrite (proj1 (proj2 grant_service_access_success
                      (MemChunkHax2.set_nextStep 4 vtable_session)
                      (world_with_replies [0; 5; 0; 0; 0; 5]) eq_refl)).
    reflexivity.
Defined.

(** [vtable_run_success] on the 2.48.3 New 3DS host. *)
Lemma vtable_run_success_witness :
  copy_acl (w_threadACL (world (snd (run_steps MemChunkHax2.steps
    (mkSt (MemChunkHax2.new row_2_48_3_new 0x1234 0x08000000 0x00120000) vtable_world_ok)))))
  = s_fullAccessACL.
Proof.
  apply (proj1 (VtableProgress.vtable_run_success row_2_48_3_new 0x1234 0x08000000 0x00120000
                  vtable_world_ok ltac:(vm_compute; reflexivity))).
Defined.

(** [Step2_records_allocation] on a page-aligned block at 0x14000000. *)
Lemma Step2_records_allocation_witness :
  Z.land (MemChunkHax.m_overwriteMemory (sess (snd (MemChunkHax.Step2_AllocateMemory
    (mkSt (MemChunkHax.set_nextStep 2 (MemChunkHax.new row_2_44_6_old))
          (world_with_replies [0; 0x14000000; 0x14100000])))))) 0xFFF = 0.
Proof.
  apply (proj2 (proj2 (LegacyChecks.Step2_records_allocation
                         (MemChunkHax.set_nextStep 2 (MemChunkHax.new row_2_44_6_old))
                         (world_with_replies [0; 0x14000000; 0x14100000]) eq_refl eq_refl))
               eq_refl).
Defined.

(** [Step4_success_checks_links] on the free list the kernel leaves after Step3. *)
Lemma Step4_success_checks_links_witness :
  load32_mem (w_mem legacy_step4_world)
    (MemChunkHax.page legacy_step4_session 2 + HeapFreeBlock_m_next) =
  ConvertLinearUserVAToKernelVA (w_virtToPhys legacy_step4_world)
    (MemChunkHax.m_versionData legacy_step4_session) (MemChunkHax.page legacy_step4_session 4) /\
  load32_mem (w_mem legacy_step4_world)
    (MemChunkHax.page legacy_step4_session 4 + HeapFreeBlock_m_prev) =
  ConvertLinearUserVAToKernelVA (w_virtToPhys legacy_step4_world)
    (MemChunkHax.m_versionData legacy_step4_session) (MemChunkHax.page legacy_step4_session 2).
Proof.
  apply (LegacyChecks.Step4_success_checks_links legacy_step4_session legacy_step4_world).
  - left. intros H. vm_compute in H. discriminate H.
  - vm_compute. reflexivity.
Defined.

(** [legacy_run_success] on the 2.44.6 Old 3DS host. *)
Lemma legacy_run_success_witness :
  let st := snd (run_steps MemChunkHax.steps
                   (mkSt (MemChunkHax.new row_2_44_6_old) legacy_world_ok)) in
  w_createThreadPatched (world st) = false /\
  copy_acl (w_threadACL (world st)) = s_fullAccessACL /\
  w_processID (world st) = MemChunkHax.m_originalPID (sess st) /\
  MemChunkHax.m_nextStep (sess st) = 7 /\
  MemChunkHax.m_overwriteAllocated (sess st) = 41.
Proof.
  apply (LegacyRun.legacy_run_success row_2_44_6_old legacy_world_ok).
  vm_compute. reflexivity.
Defined.

(** [legacy_cleanup_after_success] on the 2.44.6 Old 3DS host. *)
Lemma legacy_cleanup_after_success_witness :
  fst (MemChunkHax.destroy 1 (snd (run_steps MemChunkHax.steps
         (mkSt (MemChunkHax.new row_2_44_6_old) legacy_world_ok)))) = Some tt.
Proof.
  apply (proj1 (LegacyRun.legacy_cleanup_after_success row_2_44_6_old legacy_world_ok 1
                  ltac:(vm_compute; reflexivity))).
Defined.

(** [GSPwn_frame] on a four-byte copy from 0x200 to 0x100. *)
Lemma GSPwn_frame_witness :
  w_mem (world (snd (GSPwn 0x100 0x200 4 false (mkSt tt (world_with_replies [0; 0x08000000])))))
    0x102 =
  w_mem (world (mkSt tt (world_with_replies [0; 0x08000000]))) (0x200 + (0x102 - 0x100)).
Proof.
  apply (proj1 (proj2 (GSPwn_frame 0x100 0x200 4 false
                         (mkSt tt (world_with_replies [0; 0x08000000])))) eq_refl).
  lia.
Defined.
